(** * longform.py: wide survival records to a long person-period panel

    A shallow embedding of the tabular pipeline of [src/longform.py] and
    the properties of its output.

    Conventions of the embedding.
    - A date is the number of days since 1970-01-01, a [Z]; the columns
      hold dates without a time of day, so [.dt.days] is exact.
    - A nullable date column (NaT) is an [option Z].  The columns [t0]
      and [maxvisit] are taken to be filled; [DateOfDeath] is nullable.
    - A data frame is the list of its rows, in row order.
    - A column assigned on the whole frame is a function of the row (and,
      for grouped operations, of the frame).
    - Plotting and file input and output are left out. *)

From Stdlib Require Import ZArith List Bool Lia Arith FinFun.
Import ListNotations.
Local Open Scope Z_scope.

Set Implicit Arguments.

(** ** Dates *)

(** [pd.to_datetime("yyyy-mm-dd")], as a day count (proleptic Gregorian
    calendar). *)
Definition to_datetime (y m d : Z) : Z :=
  let y' := if m <=? 2 then y - 1 else y in
  let era := y' / 400 in
  let yoe := y' - era * 400 in
  let mp := if 2 <? m then m - 3 else m + 9 in
  let doy := (153 * mp + 2) / 5 + d - 1 in
  let doe := yoe * 365 + yoe / 4 - yoe / 100 + doy in
  era * 146097 + doe - 719468.

(** ** Configuration (lines 20-27) *)

Definition NUM_DAYS : Z := 30.
Definition MAX_DATE : Z := to_datetime 2020 10 1.
Definition MAX_DAYS : Z := 360 * 6.
Definition num_days_censor : Z := 30.

Arguments NUM_DAYS : simpl never.
Arguments MAX_DATE : simpl never.
Arguments MAX_DAYS : simpl never.
Arguments num_days_censor : simpl never.

(** The start-up check of line 26: [MAX_DAYS % NUM_DAYS != 0]. *)
Definition config_rejected : bool := negb (MAX_DAYS mod NUM_DAYS =? 0).

(** ** Pandas primitives used by the script *)

Section Frames.
Variable A : Type.
Variable eqb : A -> A -> bool.

(** [DataFrame.drop_duplicates()]: the first of equal rows is kept,
    row order is kept. *)
Fixpoint drop_duplicates (df : list A) : list A :=
  match df with
  | [] => []
  | r :: df' => r :: filter (fun r' => negb (eqb r r')) (drop_duplicates df')
  end.
End Frames.

Definition isnull (d : option Z) : bool :=
  match d with None => true | Some _ => false end.

Definition opt_eqb (a b : option Z) : bool :=
  match a, b with
  | Some x, Some y => x =? y
  | None, None => true
  | _, _ => false
  end.

(** Row-wise [min(axis=1)] of a nullable date column and a filled one;
    a NaT is skipped. *)
Definition min_skipna (a : option Z) (b : Z) : Z :=
  match a with Some x => Z.min x b | None => b end.

(** [pd.date_range(start, stop, freq=f'{step}D')]: [start], [start + step],
    ... up to and including [stop]; empty when [stop < start]. *)
Definition date_range (start stop step : Z) : list Z :=
  map (fun k => start + step * Z.of_nat k)
      (seq 0 (Z.to_nat ((stop - start) / step + 1))).

(** [Series.min()]: NaN on an empty series. *)
Definition series_min (s : list Z) : option Z :=
  match s with
  | [] => None
  | x :: s' => Some (fold_left Z.min s' x)
  end.

(** [i[i >= 0]] on a series of day counts with NaN. *)
Definition nonneg (s : list (option Z)) : list Z :=
  flat_map (fun o => match o with
                     | Some d => if 0 <=? d then [d] else []
                     | None => []
                     end) s.

(** ** The wide frame (lines 29-78) *)

(** Line 30: the four columns read from the cohort file. *)
Record cohort_row := mkCohort {
  c_idvar : Z;
  c_t0 : Z;
  c_eventdate : option Z;
  c_maxvisit : Z
}.

Definition cohort_eqb (a b : cohort_row) : bool :=
  (c_idvar a =? c_idvar b) && (c_t0 a =? c_t0 b)
  && opt_eqb (c_eventdate a) (c_eventdate b)
  && (c_maxvisit a =? c_maxvisit b).

(** Lines 36-39: end date before the event date is looked at. *)
Definition admin_end_date (c : cohort_row) : Z :=
  Z.min MAX_DATE (c_t0 c + 360 * 6).

(** Lines 52-54. *)
Definition censor_flag (c : cohort_row) : bool :=
  (c_maxvisit c <? admin_end_date c - num_days_censor)
  && isnull (c_eventdate c).

(** Line 78. *)
Definition event_end_date (c : cohort_row) : Z :=
  min_skipna (c_eventdate c) (admin_end_date c).

(** ** The long frame (lines 81-94) *)

(** The seven columns of the frame built at lines 81-92. *)
Record long_row := mkLong {
  idvar : Z;
  t : Z;
  t0 : Z;
  end_date : Z;
  maxvisit : Z;
  censor : bool;
  eventdate : option Z
}.

Definition long_eqb (a b : long_row) : bool :=
  (idvar a =? idvar b) && (t a =? t b) && (t0 a =? t0 b)
  && (end_date a =? end_date b) && (maxvisit a =? maxvisit b)
  && Bool.eqb (censor a) (censor b)
  && opt_eqb (eventdate a) (eventdate b).

(** Lines 82-91: the frame of one patient row. *)
Definition expand (c : cohort_row) : list long_row :=
  map (fun d => {| idvar := c_idvar c;
                   t := d;
                   t0 := c_t0 c;
                   end_date := event_end_date c;
                   maxvisit := c_maxvisit c;
                   censor := censor_flag c;
                   eventdate := c_eventdate c |})
      (date_range (c_t0 c) (event_end_date c + NUM_DAYS) NUM_DAYS).

(** Lines 81-93, on the de-duplicated wide frame. *)
Definition long_frame (df : list cohort_row) : list long_row :=
  drop_duplicates long_eqb (flat_map expand df).

Definition group (df : list long_row) (k : Z) : list long_row :=
  filter (fun r => idvar r =? k) df.

(** Line 94: [groupby(idvar).cumcount()], each row paired with the number
    of earlier rows of its group; [seen] is the frame read so far. *)
Fixpoint cumcount (seen df : list long_row) : list (long_row * nat) :=
  match df with
  | [] => []
  | r :: df' =>
      (r, length (group seen (idvar r))) :: cumcount (seen ++ [r]) df'
  end.

(** ** Events and censoring (lines 96-118) *)

Definition isnaevent (r : long_row) : bool := isnull (eventdate r).
Definition censored (r : long_row) : bool := censor r.

Definition on_or_after (d : Z) (o : option Z) : bool :=
  match o with Some e => e <=? d | None => false end.

(** The mask of lines 108 and 109. *)
Definition past_grace (r : long_row) : bool :=
  isnaevent r && censored r && (maxvisit r + num_days_censor <? t r).

(** Lines 99, 104 and 108 in turn; [None] is NaN. *)
Definition EVENT_col (r : long_row) : option Z :=
  let e := Some 0 in
  let e := if negb (isnaevent r) && on_or_after (t r) (eventdate r)
           then Some 1 else e in
  if past_grace r then None else e.

(** Lines 99 and 109. *)
Definition CENS_col (r : long_row) : Z :=
  let c := 0 in
  if past_grace r then 1 else c.

(** Lines 112-113. *)
Definition censor_date_col (r : long_row) : option Z :=
  let d := Some (maxvisit r + num_days_censor) in
  if negb (censored r) then None else d.

(** Line 116: [(t - censor_date).dt.days]. *)
Definition censor_days (r : long_row) : option Z :=
  match censor_date_col r with
  | Some d => Some (t r - d)
  | None => None
  end.

(** Line 117: the least non-negative day count of the row's group. *)
Definition group_censor_days (df : list long_row) (r : long_row) : option Z :=
  series_min (nonneg (map censor_days (group df (idvar r)))).

(** Line 118. *)
Definition censor_t_col (df : list long_row) (r : long_row) : option Z :=
  match censor_date_col r, group_censor_days df r with
  | Some d, Some n => Some (d + n)
  | _, _ => None
  end.

(** ** The panel *)

(** A row of the written frame: the long row and the added columns. *)
Record panel_row := mkPanel {
  row :> long_row;
  month : nat;
  EVENT : option Z;
  CENS : Z;
  censor_date : option Z;
  censor_t : option Z
}.

Definition assign (df : list long_row) (rm : long_row * nat) : panel_row :=
  {| row := fst rm;
     month := snd rm;
     EVENT := EVENT_col (fst rm);
     CENS := CENS_col (fst rm);
     censor_date := censor_date_col (fst rm);
     censor_t := censor_t_col df (fst rm) |}.

(** The frame after line 118, before the truncation. *)
Definition assigned (df : list long_row) : list panel_row :=
  map (assign df) (cumcount [] df).

(** The row mask of line 119. *)
Definition retained (p : panel_row) : bool :=
  match censor_t p with
  | None => true
  | Some c => t p <=? c
  end.

(** Lines 29-31.  The cells are compared as the dates they parse to; a
    file that spells one date in two ways keeps both rows up to line 93,
    which then removes the repeated long rows. *)
Definition wide_frame (cohort : list cohort_row) : list cohort_row :=
  drop_duplicates cohort_eqb cohort.

(** Rows of the frame before and after line 119. *)
Definition untruncated (cohort : list cohort_row) : list panel_row :=
  assigned (long_frame (wide_frame cohort)).

Definition long_format (cohort : list cohort_row) : list panel_row :=
  filter retained (untruncated cohort).

(** The script as a whole, on cells that parse as dates within the range
    of [datetime64] (lines 31 and 37 raise otherwise).  [pd.concat] of an
    empty list of frames raises, so a cohort file without rows gives no
    panel. *)
Definition longform (cohort : list cohort_row) : option (list panel_row) :=
  if config_rejected then None
  else match wide_frame cohort with
       | [] => None
       | _ :: _ => Some (long_format cohort)
       end.

(** ** Example cohorts *)

Definition patient_A : cohort_row :=
  mkCohort 1 (to_datetime 2018 1 1) (Some (to_datetime 2018 3 15))
           (to_datetime 2018 3 10).

Definition summary (p : panel_row) : nat * Z * option Z * Z :=
  (month p, t p, EVENT p, CENS p).

(** Two cohort rows with one identifier and different last visits. *)
Definition twin_cohort : list cohort_row :=
  [ mkCohort 7 (to_datetime 2019 1 1) None (to_datetime 2019 1 11);
    mkCohort 7 (to_datetime 2019 1 1) None (to_datetime 2019 1 6) ].

(** A patient last seen on the origin date: the grace period ends on the
    second period boundary. *)
Definition boundary_patient : cohort_row :=
  mkCohort 3 (to_datetime 2019 1 1) None (to_datetime 2019 1 1).

(** A patient whose origin date is two weeks after the administrative
    cutoff. *)
Definition late_patient : cohort_row :=
  mkCohort 5 (to_datetime 2020 10 15) None (to_datetime 2020 11 1).

(** ** Derived notions and tactics *)

(** Replace the day counts of the configuration by their values. *)
Ltac config_values :=
  cbv delta [NUM_DAYS num_days_censor MAX_DAYS] in *.

(** The [i]-th row generated for a cohort row, and how many there are. *)
Definition row_of (c : cohort_row) (i : nat) : long_row :=
  {| idvar := c_idvar c;
     t := c_t0 c + NUM_DAYS * Z.of_nat i;
     t0 := c_t0 c;
     end_date := event_end_date c;
     maxvisit := c_maxvisit c;
     censor := censor_flag c;
     eventdate := c_eventdate c |}.

Definition periods (c : cohort_row) : nat :=
  Z.to_nat ((event_end_date c + NUM_DAYS - c_t0 c) / NUM_DAYS + 1).

(** A cohort row is the sole record of its identifier when every cohort
    row with that identifier is equal to it. *)
Definition sole_record (cohort : list cohort_row) (c : cohort_row) : Prop :=
  In c cohort /\
  forall c', In c' cohort -> c_idvar c' = c_idvar c -> c' = c.

(** Decide membership in a frame that evaluates to an explicit list. *)
Ltac in_frame :=
  vm_compute; repeat (first [left; reflexivity | right]).

(** The row of [boundary_patient] that starts on its censoring date. *)
Definition boundary_row : panel_row :=
  assign (long_frame (wide_frame [boundary_patient]))
         (row_of boundary_patient 1, 1%nat).

(** C8, as the scenario is specified: two rows, the event at index 1. *)
Definition scenario_A_specified (panel : list panel_row) : Prop :=
  map (fun p : panel_row => (month p, EVENT p)) panel
  = [(0%nat, Some 0); (1%nat, Some 1)] /\
  (forall p : panel_row, In p panel -> CENS p = 0).

(** The rows of [twin_cohort] used below: the censored row of the first
    cohort row, and the first row of the second cohort row. *)
Definition twin_censored_row : panel_row :=
  assign (long_frame (wide_frame twin_cohort))
         (row_of (mkCohort 7 (to_datetime 2019 1 1) None
                           (to_datetime 2019 1 11)) 2, 2%nat).

Definition twin_second_row : panel_row :=
  assign (long_frame (wide_frame twin_cohort))
         (row_of (mkCohort 7 (to_datetime 2019 1 1) None
                           (to_datetime 2019 1 6)) 0, 23%nat).

(** A patient lost to follow-up ten days after the origin date. *)
Definition lost_patient : cohort_row :=
  mkCohort 9 (to_datetime 2019 1 1) None (to_datetime 2019 1 11).

Definition lost_row (i : nat) : panel_row :=
  assign (long_frame (wide_frame [lost_patient])) (row_of lost_patient i, i).

Definition patient_A_row (i : nat) : panel_row :=
  assign (long_frame (wide_frame [patient_A])) (row_of patient_A i, i).

(** Lines 122-123: [x.groupby(idvar)['month'].transform('max')] on the
    written frame, the largest period index of the row's group. *)
Definition tt_col (panel : list panel_row) (p : panel_row) : nat :=
  fold_right Nat.max 0%nat
             (map month (filter (fun q : panel_row => idvar q =? idvar p) panel)).

(** Three patients with distinct identifiers. *)
Definition mixed_cohort : list cohort_row :=
  [patient_A; lost_patient; boundary_patient].

(** Two cohort rows with one identifier: one with an event date, one
    without event and lost to follow-up. *)
Definition event_twin_cohort : list cohort_row :=
  [ mkCohort 7 (to_datetime 2019 1 1) (Some (to_datetime 2019 6 1))
             (to_datetime 2019 5 20);
    mkCohort 7 (to_datetime 2019 1 1) None (to_datetime 2019 1 11) ].

(** The censored row of the second cohort row of [event_twin_cohort]. *)
Definition event_twin_censored_row : panel_row :=
  assign (long_frame (wide_frame event_twin_cohort))
         (row_of (mkCohort 7 (to_datetime 2019 1 1) None
                           (to_datetime 2019 1 11)) 2, 9%nat).

(** A patient whose event date is the second period boundary. *)
Definition boundary_event_patient : cohort_row :=
  mkCohort 11 (to_datetime 2019 1 1) (Some (to_datetime 2019 1 31))
           (to_datetime 2019 1 20).

Definition boundary_event_row (i : nat) : panel_row :=
  assign (long_frame (wide_frame [boundary_event_patient]))
         (row_of boundary_event_patient i, i).

(** * Properties *)

(** ** Frames as lists *)

Section Filters.
Variable A : Type.

Lemma filter_swap (f g : A -> bool) (l : list A) :
  filter f (filter g l) = filter g (filter f l).
Proof.
  induction l as [|x l IH]; simpl; [reflexivity|].
  destruct (g x) eqn:Hg, (f x) eqn:Hf; simpl;
    rewrite ?Hg, ?Hf, IH; reflexivity.
Qed.

Lemma filter_all (f : A -> bool) (l : list A) :
  (forall x, In x l -> f x = true) -> filter f l = l.
Proof.
  induction l as [|x l IH]; simpl; intros H; [reflexivity|].
  rewrite (H x (or_introl eq_refl)), IH; auto.
Qed.

Lemma filter_none (f : A -> bool) (l : list A) :
  (forall x, In x l -> f x = false) -> filter f l = [].
Proof.
  induction l as [|x l IH]; simpl; intros H; [reflexivity|].
  rewrite (H x (or_introl eq_refl)), IH; auto.
Qed.

Lemma filter_sole (f : A -> bool) (l : list A) (c : A) :
  NoDup l -> In c l -> f c = true ->
  (forall x, In x l -> f x = true -> x = c) ->
  filter f l = [c].
Proof.
  induction 1 as [|r l Hr Hl IH]; simpl; intros Hc Hf Hu; [contradiction|].
  destruct Hc as [->|Hc].
  - rewrite Hf. f_equal. apply filter_none. intros x Hx.
    destruct (f x) eqn:E; [|reflexivity].
    assert (x = c) by auto. congruence.
  - destruct (f r) eqn:E.
    + assert (r = c) by auto. congruence.
    + apply IH; auto.
Qed.

Lemma filter_flat_map (B : Type) (f : B -> bool) (g : A -> list B)
      (l : list A) :
  filter f (flat_map g l) = flat_map (fun x => filter f (g x)) l.
Proof.
  induction l as [|x l IH]; simpl; [reflexivity|].
  now rewrite filter_app, IH.
Qed.

Lemma filter_map_comm (B : Type) (f : B -> bool) (g : A -> B) (l : list A) :
  filter f (map g l) = map g (filter (fun x => f (g x)) l).
Proof.
  induction l as [|x l IH]; simpl; [reflexivity|].
  destruct (f (g x)); simpl; now rewrite IH.
Qed.
End Filters.

Section Duplicates.
Variable A : Type.
Variable eqb : A -> A -> bool.
Hypothesis eqb_refl : forall a, eqb a a = true.
Hypothesis eqb_eq : forall a b, eqb a b = true -> a = b.

Lemma filter_drop_duplicates (f : A -> bool) (l : list A) :
  filter f (drop_duplicates eqb l) = drop_duplicates eqb (filter f l).
Proof.
  induction l as [|r l IH]; simpl; [reflexivity|].
  destruct (f r) eqn:Hr; simpl.
  - rewrite filter_swap, IH. reflexivity.
  - rewrite filter_swap, <- IH.
    apply filter_all. intros x Hx.
    apply filter_In in Hx. destruct Hx as [_ Hx].
    destruct (eqb r x) eqn:E; [|reflexivity].
    apply eqb_eq in E. congruence.
Qed.

Lemma drop_duplicates_In (l : list A) (x : A) :
  In x (drop_duplicates eqb l) <-> In x l.
Proof.
  induction l as [|r l IH]; simpl; [tauto|].
  rewrite filter_In, IH. split.
  - tauto.
  - intros [->|H]; [now left|].
    destruct (eqb r x) eqn:E.
    + left. now apply eqb_eq.
    + right. split; [assumption | reflexivity].
Qed.

Lemma drop_duplicates_NoDup (l : list A) : NoDup (drop_duplicates eqb l).
Proof.
  induction l as [|r l IH]; simpl; constructor.
  - rewrite filter_In, eqb_refl. simpl. intros [_ H]. discriminate.
  - now apply NoDup_filter.
Qed.

Lemma drop_duplicates_id (l : list A) : NoDup l -> drop_duplicates eqb l = l.
Proof.
  induction 1 as [|r l Hr Hl IH]; simpl; [reflexivity|].
  rewrite IH. f_equal. apply filter_all. intros x Hx.
  destruct (eqb r x) eqn:E; [|reflexivity].
  apply eqb_eq in E. congruence.
Qed.
End Duplicates.

Lemma opt_eqb_eq (a b : option Z) : opt_eqb a b = true -> a = b.
Proof.
  destruct a, b; simpl; try discriminate; try reflexivity.
  intros H. apply Z.eqb_eq in H. now subst.
Qed.

Lemma opt_eqb_refl (a : option Z) : opt_eqb a a = true.
Proof. destruct a; simpl; [apply Z.eqb_refl | reflexivity]. Qed.

Lemma cohort_eqb_eq (a b : cohort_row) : cohort_eqb a b = true -> a = b.
Proof.
  unfold cohort_eqb. destruct a, b; simpl. intros H.
  repeat (apply andb_prop in H; destruct H as [H ?]).
  repeat match goal with
         | E : (_ =? _) = true |- _ => apply Z.eqb_eq in E
         | E : opt_eqb _ _ = true |- _ => apply opt_eqb_eq in E
         end.
  congruence.
Qed.

Lemma cohort_eqb_refl (a : cohort_row) : cohort_eqb a a = true.
Proof.
  unfold cohort_eqb. now rewrite !Z.eqb_refl, opt_eqb_refl.
Qed.

Lemma long_eqb_eq (a b : long_row) : long_eqb a b = true -> a = b.
Proof.
  unfold long_eqb. destruct a, b; simpl. intros H.
  repeat (apply andb_prop in H; destruct H as [H ?]).
  repeat match goal with
         | E : (_ =? _) = true |- _ => apply Z.eqb_eq in E
         | E : opt_eqb _ _ = true |- _ => apply opt_eqb_eq in E
         | E : Bool.eqb _ _ = true |- _ => apply Bool.eqb_prop in E
         end.
  congruence.
Qed.

Lemma long_eqb_refl (a : long_row) : long_eqb a a = true.
Proof.
  unfold long_eqb. now rewrite !Z.eqb_refl, opt_eqb_refl, Bool.eqb_reflx.
Qed.

(** ** The configuration is accepted *)

Lemma config_accepted : config_rejected = false.
Proof. reflexivity. Qed.

Lemma NUM_DAYS_val : NUM_DAYS = 30.
Proof. reflexivity. Qed.

Lemma num_days_censor_val : num_days_censor = 30.
Proof. reflexivity. Qed.

Lemma MAX_DAYS_val : MAX_DAYS = 2160.
Proof. reflexivity. Qed.

(** ** The rows of one cohort row *)

Lemma expand_rows (c : cohort_row) :
  expand c = map (row_of c) (seq 0 (periods c)).
Proof. unfold expand, date_range. now rewrite map_map. Qed.

Lemma expand_In (c : cohort_row) (r : long_row) :
  In r (expand c) <-> exists i, (i < periods c)%nat /\ r = row_of c i.
Proof.
  rewrite expand_rows, in_map_iff. split.
  - intros (i & <- & Hi). apply in_seq in Hi. exists i. split; [lia | reflexivity].
  - intros (i & Hi & ->). exists i. split; [reflexivity | apply in_seq; lia].
Qed.

Lemma expand_idvar (c : cohort_row) (r : long_row) :
  In r (expand c) -> idvar r = c_idvar c.
Proof. intros H. apply expand_In in H. destruct H as (i & _ & ->). reflexivity. Qed.

Lemma expand_NoDup (c : cohort_row) : NoDup (expand c).
Proof.
  apply (NoDup_map_inv t). rewrite expand_rows, map_map.
  apply Injective_map_NoDup; [|apply seq_NoDup].
  intros i j H. unfold row_of in H. cbn [t] in H. config_values. lia.
Qed.

Lemma group_expand (ws : list cohort_row) (k : Z) :
  group (flat_map expand ws) k
  = flat_map expand (filter (fun c => c_idvar c =? k) ws).
Proof.
  unfold group. induction ws as [|c ws IH]; simpl; [reflexivity|].
  rewrite filter_app, IH. destruct (c_idvar c =? k) eqn:E; simpl.
  - f_equal. apply filter_all. intros r Hr. now rewrite (expand_idvar _ _ Hr).
  - rewrite filter_none; [reflexivity|].
    intros r Hr. now rewrite (expand_idvar _ _ Hr).
Qed.

Lemma sole_record_wide (cohort : list cohort_row) (c : cohort_row) :
  sole_record cohort c ->
  filter (fun c' => c_idvar c' =? c_idvar c) (wide_frame cohort) = [c].
Proof.
  intros [Hin Hu]. unfold wide_frame. apply filter_sole.
  - apply drop_duplicates_NoDup. apply cohort_eqb_refl.
  - now apply (@drop_duplicates_In _ _ cohort_eqb_eq).
  - apply Z.eqb_refl.
  - intros x Hx E. apply Z.eqb_eq in E.
    apply (proj1 (@drop_duplicates_In _ _ cohort_eqb_eq _ _)) in Hx. auto.
Qed.

(** The group of a sole record holds its own rows and nothing else. *)
Lemma sole_record_group (cohort : list cohort_row) (c : cohort_row) :
  sole_record cohort c ->
  group (long_frame (wide_frame cohort)) (c_idvar c) = expand c.
Proof.
  intros H. unfold long_frame, group.
  rewrite filter_drop_duplicates by apply long_eqb_eq.
  fold (group (flat_map expand (wide_frame cohort)) (c_idvar c)).
  rewrite group_expand, (sole_record_wide H). simpl. rewrite app_nil_r.
  apply drop_duplicates_id; [apply long_eqb_eq | apply expand_NoDup].
Qed.

(** ** The period index *)

Lemma group_snoc (seen : list long_row) (r : long_row) (k : Z) :
  group (seen ++ [r]) k
  = group seen k ++ (if idvar r =? k then [r] else []).
Proof. unfold group. rewrite filter_app. reflexivity. Qed.

Lemma cumcount_group (k : Z) (df seen : list long_row) :
  filter (fun rm => idvar (fst rm) =? k) (cumcount seen df)
  = combine (group df k)
            (seq (length (group seen k)) (length (group df k))).
Proof.
  revert seen. induction df as [|r df IH]; intros seen; simpl; [reflexivity|].
  rewrite IH, group_snoc. destruct (idvar r =? k) eqn:E; simpl.
  - apply Z.eqb_eq in E. rewrite E, length_app. simpl.
    now rewrite Nat.add_1_r.
  - now rewrite app_nil_r.
Qed.

Lemma cumcount_rows (df seen : list long_row) :
  map fst (cumcount seen df) = df.
Proof.
  revert seen. induction df as [|r df IH]; intros seen; simpl; [reflexivity|].
  now rewrite IH.
Qed.

Lemma assigned_In (df : list long_row) (p : panel_row) :
  In p (assigned df) ->
  In (row p) df /\ p = assign df (row p, month p).
Proof.
  unfold assigned. rewrite in_map_iff. intros ([r m] & <- & H). simpl.
  split; [|reflexivity].
  rewrite <- (cumcount_rows df []). now apply (in_map fst) in H.
Qed.

Lemma combine_map_seq (B : Type) (f : nat -> B) (a n : nat) :
  combine (map f (seq a n)) (seq a n) = map (fun i => (f i, i)) (seq a n).
Proof.
  revert a. induction n as [|n IH]; intros a; simpl; [reflexivity|].
  now rewrite IH.
Qed.

(** The rows of a sole record before truncation, in frame order: row [i]
    of the record with period index [i]. *)
Lemma sole_record_rows (cohort : list cohort_row) (c : cohort_row) :
  sole_record cohort c ->
  filter (fun p : panel_row => idvar p =? c_idvar c) (untruncated cohort)
  = map (fun i => assign (long_frame (wide_frame cohort)) (row_of c i, i))
        (seq 0 (periods c)).
Proof.
  intros H. unfold untruncated, assigned.
  rewrite filter_map_comm. simpl.
  rewrite cumcount_group, (sole_record_group H). simpl.
  rewrite expand_rows, length_map, length_seq, combine_map_seq, map_map.
  reflexivity.
Qed.

Lemma sole_record_row (cohort : list cohort_row) (c : cohort_row)
      (p : panel_row) :
  sole_record cohort c ->
  In p (untruncated cohort) -> idvar p = c_idvar c ->
  (month p < periods c)%nat /\
  p = assign (long_frame (wide_frame cohort)) (row_of c (month p), month p).
Proof.
  intros H Hp Hid.
  assert (Hf : In p (filter (fun p : panel_row => idvar p =? c_idvar c)
                            (untruncated cohort))).
  { apply filter_In. split; [assumption | now apply Z.eqb_eq]. }
  rewrite (sole_record_rows H), in_map_iff in Hf.
  destruct Hf as (i & <- & Hi). apply in_seq in Hi. simpl.
  split; [lia | reflexivity].
Qed.

(** ** From panel rows back to cohort rows *)

Lemma longform_rows (cohort : list cohort_row) (panel : list panel_row) :
  longform cohort = Some panel -> panel = long_format cohort.
Proof.
  unfold longform. rewrite config_accepted.
  destruct (wide_frame cohort); [discriminate | congruence].
Qed.

Lemma longform_runs (cohort : list cohort_row) :
  cohort <> [] -> longform cohort = Some (long_format cohort).
Proof.
  unfold longform, wide_frame. rewrite config_accepted.
  destruct cohort as [|c cohort]; [congruence | reflexivity].
Qed.

Lemma long_format_In (cohort : list cohort_row) (p : panel_row) :
  In p (long_format cohort) <->
  In p (untruncated cohort) /\ retained p = true.
Proof. unfold long_format. apply filter_In. Qed.

(** Every row before truncation was generated from a cohort row, and
    carries the columns computed from it. *)
Lemma untruncated_In (cohort : list cohort_row) (p : panel_row) :
  In p (untruncated cohort) ->
  exists c i,
    In c cohort /\ (i < periods c)%nat /\ row p = row_of c i /\
    In (row p) (long_frame (wide_frame cohort)) /\
    p = assign (long_frame (wide_frame cohort)) (row p, month p).
Proof.
  intros H. apply assigned_In in H. destruct H as [Hr Hp].
  pose proof Hr as Hr'. unfold long_frame in Hr'.
  apply (proj1 (@drop_duplicates_In _ _ long_eqb_eq _ _)) in Hr'.
  apply in_flat_map in Hr'. destruct Hr' as (c & Hc & Hrc).
  apply (proj1 (@drop_duplicates_In _ _ cohort_eqb_eq _ _)) in Hc.
  apply expand_In in Hrc. destruct Hrc as (i & Hi & Hri).
  exists c, i. auto.
Qed.

(** ** The censoring indicator *)

Lemma isnull_None (d : option Z) : isnull d = true <-> d = None.
Proof. destruct d; simpl; split; congruence. Qed.

Lemma past_grace_iff (r : long_row) :
  past_grace r = true <->
  eventdate r = None /\ censor r = true /\
  maxvisit r + num_days_censor < t r.
Proof.
  unfold past_grace, isnaevent, censored.
  rewrite !andb_true_iff, isnull_None, Z.ltb_lt. tauto.
Qed.

Lemma CENS_col_one (r : long_row) :
  CENS_col r = 1 <-> past_grace r = true.
Proof.
  unfold CENS_col. destruct (past_grace r); split; congruence.
Qed.

Lemma CENS_col_zero (r : long_row) :
  CENS_col r = 0 <-> past_grace r = false.
Proof.
  unfold CENS_col. destruct (past_grace r); split; congruence.
Qed.

Lemma censor_flag_iff (c : cohort_row) :
  censor_flag c = true <->
  c_eventdate c = None /\ c_maxvisit c < admin_end_date c - num_days_censor.
Proof.
  unfold censor_flag. rewrite andb_true_iff, isnull_None, Z.ltb_lt. tauto.
Qed.

(** ** The least non-negative day count of a group *)

Lemma fold_min_spec (s : list Z) (x : Z) :
  let m := fold_left Z.min s x in
  (m = x \/ In m s) /\ m <= x /\ forall y, In y s -> m <= y.
Proof.
  revert x. induction s as [|y s IH]; intros x; simpl.
  - split; [now left|]. split; [lia | tauto].
  - destruct (IH (Z.min x y)) as (Hin & Hle & Hall).
    split; [|split].
    + destruct Hin as [Hm|Hm]; [|tauto].
      destruct (Z.min_spec x y) as [[_ E]|[_ E]];
        [left | right; left]; congruence.
    + lia.
    + intros z [<-|Hz]; [lia | auto].
Qed.

Lemma series_min_spec (s : list Z) (m : Z) :
  series_min s = Some m -> In m s /\ forall y, In y s -> m <= y.
Proof.
  destruct s as [|x s]; simpl; [discriminate|].
  intros H. injection H as <-.
  destruct (fold_min_spec s x) as (Hin & Hle & Hall). split.
  - destruct Hin as [->|Hin]; auto.
  - intros y [<-|Hy]; auto.
Qed.

Lemma series_min_some (s : list Z) (y : Z) :
  In y s -> exists m, series_min s = Some m.
Proof. destruct s; simpl; [contradiction | eauto]. Qed.

Lemma nonneg_In (s : list (option Z)) (d : Z) :
  In d (nonneg s) <-> In (Some d) s /\ 0 <= d.
Proof.
  unfold nonneg. rewrite in_flat_map. split.
  - intros ([x|] & Ho & Hd); [|contradiction].
    destruct (0 <=? x) eqn:E; [|contradiction].
    destruct Hd as [<-|[]]. apply Z.leb_le in E. auto.
  - intros [Ho Hd]. exists (Some d). split; [assumption|].
    apply Z.leb_le in Hd. rewrite Hd. now left.
Qed.

Lemma group_In (df : list long_row) (k : Z) (q : long_row) :
  In q (group df k) <-> In q df /\ idvar q = k.
Proof. unfold group. now rewrite filter_In, Z.eqb_eq. Qed.

Lemma group_censor_days_In (df : list long_row) (r : long_row) (n : Z) :
  In n (nonneg (map censor_days (group df (idvar r)))) <->
  0 <= n /\ exists q, In q df /\ idvar q = idvar r /\ censor_days q = Some n.
Proof.
  rewrite nonneg_In, in_map_iff. split.
  - intros [(q & Hq & Hg) Hn]. apply group_In in Hg. split; [assumption|].
    exists q. tauto.
  - intros [Hn (q & Hq & Hid & Hd)]. split; [|assumption].
    exists q. split; [assumption|]. apply group_In. auto.
Qed.

Lemma group_censor_days_spec (df : list long_row) (r : long_row) (n : Z) :
  group_censor_days df r = Some n ->
  0 <= n /\
  (exists q, In q df /\ idvar q = idvar r /\ censor_days q = Some n) /\
  (forall q n', In q df -> idvar q = idvar r ->
                censor_days q = Some n' -> 0 <= n' -> n <= n').
Proof.
  unfold group_censor_days. intros H. apply series_min_spec in H.
  destruct H as [Hin Hmin]. apply group_censor_days_In in Hin.
  destruct Hin as [Hn Hq]. split; [assumption|]. split; [assumption|].
  intros q n' Hq' Hid Hd Hn'. apply Hmin. apply group_censor_days_In. eauto.
Qed.

Lemma group_censor_days_some (df : list long_row) (r q : long_row) (n' : Z) :
  In q df -> idvar q = idvar r -> censor_days q = Some n' -> 0 <= n' ->
  exists n, group_censor_days df r = Some n.
Proof.
  intros Hq Hid Hd Hn. unfold group_censor_days.
  apply (series_min_some _ n'). apply group_censor_days_In. eauto.
Qed.


Lemma censor_date_col_some (r : long_row) (d : Z) :
  censor_date_col r = Some d <->
  censor r = true /\ d = maxvisit r + num_days_censor.
Proof.
  unfold censor_date_col, censored. destruct (censor r); simpl; split.
  - intros H. injection H as <-. auto.
  - intros [_ ->]. reflexivity.
  - discriminate.
  - intros [H _]. discriminate.
Qed.

Lemma censor_date_col_none (r : long_row) :
  censor_date_col r = None <-> censor r = false.
Proof.
  unfold censor_date_col, censored. destruct (censor r); simpl; split;
    congruence.
Qed.

(** A candidate row has no event date and its grace period ends before
    the end of follow-up. *)
Lemma candidate_row (cohort : list cohort_row) (p : panel_row) :
  In p (untruncated cohort) -> censor p = true ->
  eventdate p = None /\ maxvisit p + num_days_censor < end_date p.
Proof.
  intros Hp Hc. apply untruncated_In in Hp.
  destruct Hp as (c & i & _ & _ & Hr & _). rewrite Hr in *. simpl in *.
  apply censor_flag_iff in Hc. destruct Hc as [He Hm].
  unfold event_end_date. rewrite He. simpl. split; [reflexivity | lia].
Qed.

(** ** End of follow-up and the candidate flag *)

Lemma event_end_date_cases (c : cohort_row) :
  event_end_date c =
  match c_eventdate c with
  | Some e => Z.min (Z.min MAX_DATE (c_t0 c + MAX_DAYS)) e
  | None => Z.min MAX_DATE (c_t0 c + MAX_DAYS)
  end.
Proof.
  unfold event_end_date, admin_end_date, min_skipna.
  change (360 * 6) with MAX_DAYS.
  destruct (c_eventdate c); [apply Z.min_comm | reflexivity].
Qed.

(** C4. For every patient the derived end date is the minimum of the
    administrative cutoff and the origin date plus the maximum follow-up;
    a non-null event date reduces it to the minimum of the two, a null
    event date leaves it as it is.  Stated on the cohort row and on the
    [end_date] column of every row of the written panel. *)
Theorem end_date_derivation :
  (forall c : cohort_row,
      event_end_date c =
      match c_eventdate c with
      | Some e => Z.min (Z.min MAX_DATE (c_t0 c + MAX_DAYS)) e
      | None => Z.min MAX_DATE (c_t0 c + MAX_DAYS)
      end) /\
  (forall (cohort : list cohort_row) (panel : list panel_row) (p : panel_row),
      longform cohort = Some panel -> In p panel ->
      end_date p =
      match eventdate p with
      | Some e => Z.min (Z.min MAX_DATE (t0 p + MAX_DAYS)) e
      | None => Z.min MAX_DATE (t0 p + MAX_DAYS)
      end).
Proof.
  split; [exact event_end_date_cases|].
  intros cohort panel p Hrun Hp. apply longform_rows in Hrun. subst panel.
  apply long_format_In in Hp. destruct Hp as [Hp _].
  apply untruncated_In in Hp. destruct Hp as (c & i & _ & _ & Hr & _).
  rewrite Hr. simpl. apply event_end_date_cases.
Qed.

(** C5. The candidate flag is true exactly when the event date is null
    and the last observation is strictly earlier than the end of
    follow-up minus the grace period, the end of follow-up being the one
    derived last (after the event date was taken into account).  Stated
    on the cohort row and on every row of the written panel. *)
Theorem censor_flag_definition :
  (forall c : cohort_row,
      censor_flag c = true <->
      c_eventdate c = None /\
      c_maxvisit c < event_end_date c - num_days_censor) /\
  (forall (cohort : list cohort_row) (panel : list panel_row) (p : panel_row),
      longform cohort = Some panel -> In p panel ->
      (censor p = true <->
       eventdate p = None /\ maxvisit p < end_date p - num_days_censor)).
Proof.
  assert (H : forall c : cohort_row,
             censor_flag c = true <->
             c_eventdate c = None /\
             c_maxvisit c < event_end_date c - num_days_censor).
  { intros c. rewrite censor_flag_iff. unfold event_end_date.
    split; intros [He Hm]; rewrite He in *; simpl in *; auto. }
  split; [exact H|].
  intros cohort panel p Hrun Hp. apply longform_rows in Hrun. subst panel.
  apply long_format_In in Hp. destruct Hp as [Hp _].
  apply untruncated_In in Hp. destruct Hp as (c & i & _ & _ & Hr & _).
  rewrite Hr. simpl. apply H.
Qed.

(** C9, as amended.  For every patient the derived end date is not after
    the administrative cutoff; it is not before the origin date exactly
    when the origin date is not after the administrative cutoff and the
    event date is null or not before the origin date. *)
Theorem end_date_bounds (c : cohort_row) :
  event_end_date c <= MAX_DATE /\
  (c_t0 c <= event_end_date c <->
   c_t0 c <= MAX_DATE /\ forall e, c_eventdate c = Some e -> c_t0 c <= e).
Proof.
  rewrite event_end_date_cases. rewrite MAX_DAYS_val.
  destruct (c_eventdate c) as [e|].
  - split; [lia|]. split.
    + intros H. split; [lia|]. intros e' He. injection He as <-. lia.
    + intros [H He]. specialize (He e eq_refl). lia.
  - split; [lia|]. split.
    + intros H. split; [lia | discriminate].
    + intros [H _]. lia.
Qed.


(** ** Period boundaries *)

(** The last generated boundary lies in the period after the end date;
    all boundaries before it are not after the end date. *)
Lemma periods_last (c : cohort_row) :
  (0 < periods c)%nat ->
  let n := Z.of_nat (periods c) in
  event_end_date c < c_t0 c + NUM_DAYS * (n - 1) <= event_end_date c + NUM_DAYS
  /\ (c_t0 c <= event_end_date c -> 2 <= n).
Proof.
  unfold periods. config_values.
  set (q := (event_end_date c + 30 - c_t0 c) / 30).
  intros Hpos.
  assert (Hq : 0 <= q) by lia.
  rewrite Z2Nat.id by lia.
  subst q. Z.div_mod_to_equations. lia.
Qed.

Lemma periods_inner (c : cohort_row) (i : nat) :
  (S i < periods c)%nat ->
  c_t0 c + NUM_DAYS * Z.of_nat i <= event_end_date c.
Proof.
  intros Hi. destruct (periods_last c) as [[_ Hu] _]; [lia|].
  config_values. lia.
Qed.

(** C3. For a patient whose cohort row is the only one of its identifier
    and whose end date is not before the origin date: the expanded rows,
    in generation order, carry the period indices 0, 1, 2, ... and the
    period start origin + index * period length; the sequence starts at
    the origin date; every boundary but the last is not after the end
    date, and the last one is strictly after it, by at most one period. *)
Theorem expansion_periods (cohort : list cohort_row) (c : cohort_row) :
  sole_record cohort c ->
  c_t0 c <= event_end_date c ->
  let rows := filter (fun p : panel_row => idvar p =? c_idvar c)
                     (untruncated cohort) in
  map (fun p : panel_row => (month p, t p)) rows
  = map (fun i => (i, c_t0 c + Z.of_nat i * NUM_DAYS)) (seq 0 (length rows))
  /\ (2 <= length rows)%nat
  /\ (exists p : panel_row, In p rows /\ month p = 0%nat /\ t p = c_t0 c)
  /\ (forall p : panel_row,
         In p rows -> (S (month p) < length rows)%nat ->
         t p <= end_date p)
  /\ (exists p : panel_row,
         In p rows /\ S (month p) = length rows /\
         end_date p < t p <= end_date p + NUM_DAYS).
Proof.
  intros Hsole Hend rows. subst rows. rewrite (sole_record_rows Hsole).
  rewrite length_map, length_seq, map_map. cbn [assign month row fst snd t row_of].
  destruct (periods_last c) as [Hlast Htwo].
  { destruct (periods c) eqn:E; [|lia]. exfalso.
    unfold periods in E. revert E. config_values.
    set (q := (event_end_date c + 30 - c_t0 c) / 30).
    assert (1 <= q) by (subst q; Z.div_mod_to_equations; lia). lia. }
  specialize (Htwo Hend).
  split; [|split; [|split; [|split]]].
  - apply map_ext. intros i. now rewrite Z.mul_comm.
  - lia.
  - exists (assign (long_frame (wide_frame cohort)) (row_of c 0, 0%nat)).
    split; [|split].
    + apply in_map_iff. exists 0%nat. split; [reflexivity|].
      apply in_seq. lia.
    + reflexivity.
    + simpl. config_values. lia.
  - intros p Hp Hm. apply in_map_iff in Hp. destruct Hp as (i & <- & Hi).
    simpl in *. now apply periods_inner.
  - exists (assign (long_frame (wide_frame cohort))
                   (row_of c (pred (periods c)), pred (periods c))).
    split; [|split].
    + apply in_map_iff. exists (pred (periods c)). split; [reflexivity|].
      apply in_seq. lia.
    + simpl. lia.
    + simpl. replace (Z.of_nat (pred (periods c)))
        with (Z.of_nat (periods c) - 1) by lia. exact Hlast.
Qed.

(** ** Truncation *)

Lemma untruncated_columns (cohort : list cohort_row) (p : panel_row) :
  In p (untruncated cohort) ->
  let df := long_frame (wide_frame cohort) in
  In (row p) df /\
  EVENT p = EVENT_col p /\ CENS p = CENS_col p /\
  censor_date p = censor_date_col p /\ censor_t p = censor_t_col df p.
Proof.
  intros H df. destruct (untruncated_In _ _ H) as (_ & _ & _ & _ & _ & Hdf & Hp).
  fold df in Hdf, Hp. split; [assumption|].
  destruct p as [r m e ce cd ct]. unfold assign in Hp. cbn [fst snd row] in *.
  injection Hp as -> -> -> ->. auto.
Qed.

Lemma retained_iff (p : panel_row) :
  retained p = true <->
  forall ct, censor_t p = Some ct -> t p <= ct.
Proof.
  unfold retained. destruct (censor_t p) as [ct|]; split.
  - intros H ct' E. injection E as <-. now apply Z.leb_le.
  - intros H. apply Z.leb_le. auto.
  - discriminate.
  - reflexivity.
Qed.



(** ** Patients with a single cohort row *)

Lemma sole_record_fields (cohort : list cohort_row) (c : cohort_row)
      (p : panel_row) :
  sole_record cohort c ->
  In p (untruncated cohort) -> idvar p = c_idvar c ->
  (month p < periods c)%nat /\ row p = row_of c (month p).
Proof.
  intros H Hp Hid. destruct (sole_record_row p H Hp Hid) as [Hm E].
  split; [assumption|]. exact (f_equal row E).
Qed.

Lemma sole_record_untruncated (cohort : list cohort_row) (c : cohort_row)
      (i : nat) :
  sole_record cohort c -> (i < periods c)%nat ->
  exists q : panel_row,
    In q (untruncated cohort) /\ row q = row_of c i /\ month q = i.
Proof.
  intros H Hi.
  exists (assign (long_frame (wide_frame cohort)) (row_of c i, i)).
  split; [|split; reflexivity].
  assert (Hf : In (assign (long_frame (wide_frame cohort)) (row_of c i, i))
                  (filter (fun p : panel_row => idvar p =? c_idvar c)
                          (untruncated cohort))).
  { rewrite (sole_record_rows H). apply in_map_iff. exists i.
    split; [reflexivity | apply in_seq; lia]. }
  apply filter_In in Hf. tauto.
Qed.

Lemma row_of_censor_days (c : cohort_row) (i : nat) :
  censor_flag c = true ->
  censor_days (row_of c i)
  = Some (t (row_of c i) - (c_maxvisit c + num_days_censor)).
Proof.
  intros Hc. unfold censor_days, censor_date_col, censored.
  cbn [censor maxvisit row_of]. rewrite Hc. reflexivity.
Qed.

(** For a candidate with a single cohort row, [censor_t] is the earliest
    generated period start that is not before the censoring date. *)
Lemma sole_record_censor_t (cohort : list cohort_row) (c : cohort_row)
      (p : panel_row) :
  sole_record cohort c ->
  In p (untruncated cohort) -> idvar p = c_idvar c -> censor p = true ->
  exists ct,
    censor_t p = Some ct /\
    maxvisit p + num_days_censor <= ct /\
    (exists q : panel_row,
        In q (untruncated cohort) /\ idvar q = idvar p /\ t q = ct) /\
    (forall q : panel_row,
        In q (untruncated cohort) -> idvar q = idvar p ->
        maxvisit p + num_days_censor <= t q -> ct <= t q).
Proof.
  intros Hsole Hp Hid Hc.
  set (df := long_frame (wide_frame cohort)).
  destruct (sole_record_fields p Hsole Hp Hid) as [Hm Hr].
  destruct (untruncated_columns _ _ Hp) as (Hdf & _ & _ & _ & Hct).
  fold df in Hdf, Hct.
  destruct (candidate_row _ _ Hp Hc) as [_ Hgrace].
  assert (Hflag : censor_flag c = true) by (rewrite Hr in Hc; exact Hc).
  assert (Hmax : maxvisit p = c_maxvisit c) by (rewrite Hr; reflexivity).
  assert (Hend : end_date p = event_end_date c) by (rewrite Hr; reflexivity).
  assert (Hgroup : forall r, In r df /\ idvar r = idvar p <->
                             exists j, (j < periods c)%nat /\ r = row_of c j).
  { intros r. rewrite Hid, <- group_In. unfold df.
    rewrite (sole_record_group Hsole). apply expand_In. }
  (* the last generated row is past the censoring date *)
  destruct (periods_last c) as [[Hlast _] _]; [lia|].
  set (l := pred (periods c)).
  assert (Hl : In (row_of c l) df /\ idvar (row_of c l) = idvar p).
  { apply Hgroup. exists l. split; [unfold l; lia | reflexivity]. }
  destruct (@group_censor_days_some df p (row_of c l)
              (t (row_of c l) - (c_maxvisit c + num_days_censor)))
    as [n Hn]; try tauto.
  { now apply row_of_censor_days. }
  { cbn [t row_of]. unfold l.
    replace (Z.of_nat (pred (periods c)))
      with (Z.of_nat (periods c) - 1) by lia. lia. }
  destruct (group_censor_days_spec _ _ Hn) as (Hn0 & (q0 & Hq0 & Hq0id & Hq0d) & Hmin).
  destruct (proj1 (Hgroup q0) (conj Hq0 Hq0id)) as (j & Hj & ->).
  rewrite (row_of_censor_days c j Hflag) in Hq0d.
  assert (Hn' : n = t (row_of c j) - (c_maxvisit c + num_days_censor))
    by congruence.
  exists (t (row_of c j)).
  assert (Hcd : censor_date_col p = Some (c_maxvisit c + num_days_censor)).
  { apply censor_date_col_some. split; [assumption | now rewrite Hmax]. }
  split; [|split; [|split]].
  - rewrite Hct. unfold censor_t_col. rewrite Hcd, Hn. f_equal. lia.
  - lia.
  - destruct (sole_record_untruncated Hsole Hj) as (q & Hq & Hqr & _).
    exists q. split; [assumption|]. rewrite Hqr.
    split; [now rewrite Hid | reflexivity].
  - intros q Hq Hqid Hafter.
    assert (Hqid' : idvar q = c_idvar c) by congruence.
    destruct (sole_record_fields q Hsole Hq Hqid') as [Hqm Hqr].
    destruct (untruncated_columns _ _ Hq) as (Hqdf & _).
    fold df in Hqdf.
    assert (Hqd : censor_days q = Some (t q - (c_maxvisit c + num_days_censor))).
    { rewrite Hqr. now apply row_of_censor_days. }
    specialize (Hmin q _ Hqdf Hqid Hqd). lia.
Qed.

(** C2, as amended.  For a patient whose cohort row is the only one of
    its identifier and whose [censor_date] is non-null, [censor_t] is the
    earliest generated period start that is not before [censor_date].
    For every patient, a row with a [censor_t] is kept exactly when its
    period start is not after [censor_t] (so every row with period start
    after [censor_t] is dropped), and a row with a null [censor_date] is
    kept unchanged. *)
Theorem truncation_contract
        (cohort : list cohort_row) (panel : list panel_row) :
  longform cohort = Some panel ->
  (forall (c : cohort_row) (p : panel_row) (cd : Z),
      sole_record cohort c ->
      In p (untruncated cohort) -> idvar p = c_idvar c ->
      censor_date p = Some cd ->
      exists ct,
        censor_t p = Some ct /\ cd <= ct /\
        (exists q : panel_row,
            In q (untruncated cohort) /\ idvar q = idvar p /\ t q = ct) /\
        (forall q : panel_row,
            In q (untruncated cohort) -> idvar q = idvar p ->
            cd <= t q -> ct <= t q)) /\
  (forall (p : panel_row) (ct : Z),
      In p (untruncated cohort) -> censor_t p = Some ct ->
      (In p panel <-> t p <= ct)) /\
  (forall p : panel_row,
      In p (untruncated cohort) -> censor_date p = None -> In p panel).
Proof.
  intros Hrun. apply longform_rows in Hrun. subst panel.
  split; [|split].
  - intros c p cd Hsole Hp Hid Hcd.
    destruct (untruncated_columns _ _ Hp) as (_ & _ & _ & Hcd' & _).
    rewrite Hcd' in Hcd. apply censor_date_col_some in Hcd.
    destruct Hcd as [Hc ->].
    exact (sole_record_censor_t p Hsole Hp Hid Hc).
  - intros p ct Hp Hct. rewrite long_format_In, retained_iff. split.
    + intros [_ H]. auto.
    + intros H. split; [assumption|].
      intros ct' E. rewrite Hct in E. injection E as <-. assumption.
  - intros p Hp Hcd. apply long_format_In. split; [assumption|].
    destruct (untruncated_columns _ _ Hp) as (_ & _ & _ & Hcd' & Hct).
    unfold retained. rewrite Hct. unfold censor_t_col.
    rewrite <- Hcd', Hcd. reflexivity.
Qed.

(** C6, as amended.  For a patient whose cohort row is the only one of
    its identifier: a row of the written panel with [CENS = 1] has the
    largest period index among the patient's rows of the panel, and it is
    the patient's only row with [CENS = 1]. *)
Theorem censored_row_is_last
        (cohort : list cohort_row) (panel : list panel_row)
        (c : cohort_row) (p q : panel_row) :
  longform cohort = Some panel ->
  sole_record cohort c ->
  In p panel -> idvar p = c_idvar c ->
  In q panel -> idvar q = c_idvar c ->
  CENS p = 1 ->
  (month q <= month p)%nat /\ (CENS q = 1 -> q = p).
Proof.
  intros Hrun Hsole Hp Hpid Hq Hqid Hcens.
  apply longform_rows in Hrun. subst panel.
  apply long_format_In in Hp. destruct Hp as [Hp Hpret].
  apply long_format_In in Hq. destruct Hq as [Hq Hqret].
  assert (Hlast : forall a b : panel_row,
             In a (untruncated cohort) -> idvar a = c_idvar c ->
             In b (untruncated cohort) -> idvar b = c_idvar c ->
             retained b = true -> CENS a = 1 ->
             (month b <= month a)%nat).
  { intros a b Ha Haid Hb Hbid Hbret Ha1.
    destruct (untruncated_columns _ _ Ha) as (_ & _ & HCa & _).
    rewrite HCa in Ha1. apply CENS_col_one, past_grace_iff in Ha1.
    destruct Ha1 as (_ & Hca & Hlate).
    destruct (sole_record_fields a Hsole Ha Haid) as [_ Har].
    destruct (sole_record_fields b Hsole Hb Hbid) as [_ Hbr].
    assert (Hcb : censor b = true).
    { rewrite Hbr. rewrite Har in Hca. exact Hca. }
    assert (Hmv : maxvisit b = maxvisit a).
    { rewrite Hbr, Har. reflexivity. }
    destruct (sole_record_censor_t b Hsole Hb Hbid Hcb)
      as (ct & Hct & _ & _ & Hmin).
    assert (Hle : ct <= t a).
    { apply Hmin; [assumption | congruence | lia]. }
    pose proof (proj1 (retained_iff b) Hbret _ Hct) as Hb_le.
    assert (Hta : t a = c_t0 c + NUM_DAYS * Z.of_nat (month a))
      by (rewrite Har; reflexivity).
    assert (Htb : t b = c_t0 c + NUM_DAYS * Z.of_nat (month b))
      by (rewrite Hbr; reflexivity).
    config_values. lia. }
  split.
  - now apply (Hlast p q).
  - intros Hq1.
    assert (Hm : month q = month p).
    { apply Nat.le_antisymm; [apply (Hlast p q) | apply (Hlast q p)];
        assumption. }
    destruct (sole_record_row p Hsole Hp Hpid) as [_ Ep].
    destruct (sole_record_row q Hsole Hq Hqid) as [_ Eq].
    rewrite Ep, Eq, Hm. reflexivity.
Qed.

(** A row that carries an event date has [CENS = 0]. *)
Lemma event_row_CENS_zero (cohort : list cohort_row) (p : panel_row) :
  In p (untruncated cohort) -> eventdate p <> None -> CENS p = 0.
Proof.
  intros Hp He.
  destruct (untruncated_columns _ _ Hp) as (_ & _ & HC & _).
  rewrite HC. apply CENS_col_zero.
  destruct (past_grace p) eqn:E; [|reflexivity].
  apply past_grace_iff in E. tauto.
Qed.

(** C7, as amended.  For a patient whose cohort row is the only one of
    its identifier and has a non-null event date, no row of that patient
    in the written panel has [CENS = 1]; and in any cohort no row of the
    written panel that itself carries an event date has [CENS = 1]. *)
Theorem event_patient_uncensored
        (cohort : list cohort_row) (panel : list panel_row) :
  longform cohort = Some panel ->
  (forall (c : cohort_row) (p : panel_row),
      sole_record cohort c -> c_eventdate c <> None ->
      In p panel -> idvar p = c_idvar c ->
      CENS p <> 1 /\ CENS p = 0) /\
  (forall p : panel_row,
      In p panel -> eventdate p <> None -> CENS p <> 1 /\ CENS p = 0).
Proof.
  intros Hrun. apply longform_rows in Hrun. subst panel.
  assert (Hrow : forall p : panel_row,
             In p (long_format cohort) -> eventdate p <> None ->
             CENS p <> 1 /\ CENS p = 0).
  { intros p Hp He. apply long_format_In in Hp. destruct Hp as [Hp _].
    pose proof (event_row_CENS_zero _ _ Hp He) as Hz.
    split; [lia | assumption]. }
  split; [|exact Hrow].
  intros c p Hsole He Hp Hid. apply Hrow; [assumption|].
  apply long_format_In in Hp. destruct Hp as [Hp _].
  destruct (sole_record_fields p Hsole Hp Hid) as [_ Hr].
  rewrite Hr. exact He.
Qed.

(** C7, counterexample.  With an event record and a record without event
    under one identifier, the patient has an event date and the written
    panel holds a row of that identifier with [CENS = 1]. *)
Lemma event_twin_has_censored_row :
  ~ (forall panel (c : cohort_row) (p : panel_row),
        longform event_twin_cohort = Some panel ->
        In c event_twin_cohort -> c_eventdate c <> None ->
        In p panel -> idvar p = c_idvar c ->
        CENS p <> 1).
Proof.
  intros H.
  apply (H (long_format event_twin_cohort)
           (mkCohort 7 (to_datetime 2019 1 1) (Some (to_datetime 2019 6 1))
                     (to_datetime 2019 5 20))
           event_twin_censored_row).
  - vm_compute. reflexivity.
  - left. reflexivity.
  - discriminate.
  - in_frame.
  - reflexivity.
  - vm_compute. reflexivity.
Qed.

(** ** Worked cohorts *)

Lemma sole_record_single (c : cohort_row) : sole_record [c] c.
Proof.
  split; [now left|]. intros c' [<-|[]] _. reflexivity.
Qed.

(** On the code the indicator follows the strict comparison of lines
    108-109. *)
Lemma CENS_strictly_after (cohort : list cohort_row) (p : panel_row) :
  In p (untruncated cohort) ->
  (CENS p = 1 <->
   eventdate p = None /\ censor p = true /\
   maxvisit p + num_days_censor < t p) /\
  (CENS p = 1 \/ CENS p = 0).
Proof.
  intros Hp. destruct (untruncated_columns _ _ Hp) as (_ & _ & HC & _).
  rewrite HC. split.
  - now rewrite CENS_col_one, past_grace_iff.
  - unfold CENS_col. destruct (past_grace p); auto.
Qed.

(** C1, on the code.  At the cohort [boundary_patient] the written panel
    holds a row of a candidate patient without event whose period start
    is the last observation plus the grace period, that is, at the
    censoring threshold, and that row has [CENS = 0]. *)
Theorem boundary_patient_CENS_zero :
  longform [boundary_patient] = Some (long_format [boundary_patient]) /\
  In boundary_row (long_format [boundary_patient]) /\
  eventdate boundary_row = None /\
  censor boundary_row = true /\
  t boundary_row = maxvisit boundary_row + num_days_censor /\
  CENS boundary_row = 0.
Proof.
  split; [reflexivity|]. split; [in_frame|]. repeat split.
Qed.

(** C8, counterexample.  The panel written for patient A is not the one
    of the scenario. *)
Lemma scenario_A_not_as_specified :
  ~ (exists panel, longform [patient_A] = Some panel /\
                   scenario_A_specified panel).
Proof.
  intros (panel & Hrun & Hrows & _).
  apply longform_rows in Hrun. subst panel.
  vm_compute in Hrows. discriminate.
Qed.

(** C8, as amended.  With period length 30, grace period 30, cutoff
    2020-10-01 and maximum follow-up 2160 days, patient A (origin
    2018-01-01, event 2018-03-15, last observation 2018-03-10) yields
    exactly the rows with period index 0, 1, 2, 3 and period start
    2018-01-01, 2018-01-31, 2018-03-02, 2018-04-01, with [EVENT = 0] at
    indices 0 to 2 and [EVENT = 1] at index 3, and [CENS = 0] on every
    row. *)
Theorem scenario_A_panel :
  NUM_DAYS = 30 /\ num_days_censor = 30 /\
  MAX_DATE = to_datetime 2020 10 1 /\ MAX_DAYS = 2160 /\
  option_map (map summary) (longform [patient_A])
  = Some [ (0%nat, to_datetime 2018 1 1, Some 0, 0);
           (1%nat, to_datetime 2018 1 31, Some 0, 0);
           (2%nat, to_datetime 2018 3 2, Some 0, 0);
           (3%nat, to_datetime 2018 4 1, Some 1, 0) ].
Proof. repeat split. Qed.

(** C9, counterexample.  A patient whose origin date is after the
    administrative cutoff has an end date before the origin date. *)
Lemma late_patient_end_before_origin :
  ~ (c_t0 late_patient <= event_end_date late_patient /\
     event_end_date late_patient <= MAX_DATE).
Proof. intros [H _]. vm_compute in H. apply H. reflexivity. Qed.

(** C6, counterexample.  With two cohort rows of one identifier, a row
    with [CENS = 1] is followed by rows of the same identifier with a
    later period index. *)
Lemma twin_rows_after_censored_row :
  ~ (forall panel (p q : panel_row),
        longform twin_cohort = Some panel ->
        In p panel -> In q panel -> idvar q = idvar p ->
        CENS p = 1 -> (month q <= month p)%nat).
Proof.
  intros H.
  specialize (H (long_format twin_cohort) twin_censored_row twin_second_row).
  assert (Hle : (month twin_second_row <= month twin_censored_row)%nat).
  { apply H.
    - vm_compute. reflexivity.
    - in_frame.
    - in_frame.
    - vm_compute. reflexivity.
    - vm_compute. reflexivity. }
  vm_compute in Hle. lia.
Qed.

(** C2, counterexample.  With two cohort rows of one identifier, the
    [censor_t] of a row with a censoring date is not the period start of
    any generated row of that identifier. *)
Lemma twin_censor_t_not_period_start :
  ~ (forall (p : panel_row) (cd : Z),
        In p (untruncated twin_cohort) -> censor_date p = Some cd ->
        exists q : panel_row,
          In q (untruncated twin_cohort) /\ idvar q = idvar p /\
          cd <= t q /\ censor_t p = Some (t q)).
Proof.
  intros H.
  destruct (H twin_second_row (to_datetime 2019 2 5)) as (q & Hq & _ & _ & Hct).
  - in_frame.
  - reflexivity.
  - apply untruncated_In in Hq.
    destruct Hq as (c & i & Hc & _ & Hr & _).
    rewrite Hr in Hct. vm_compute in Hct. injection Hct as Hct.
    destruct Hc as [<-|[<-|[]]]; vm_compute in Hct;
      destruct i as [|[|[|i]]]; try discriminate; simpl in Hct; lia.
Qed.

(** The end date of the last row of patient A is the event date. *)
Lemma end_date_derivation_witness :
  longform [patient_A] = Some (long_format [patient_A]) /\
  In (patient_A_row 3) (long_format [patient_A]) /\
  end_date (patient_A_row 3) = to_datetime 2018 3 15.
Proof.
  assert (H1 : longform [patient_A] = Some (long_format [patient_A]))
    by (vm_compute; reflexivity).
  assert (H2 : In (patient_A_row 3) (long_format [patient_A])) by in_frame.
  split; [exact H1|]. split; [exact H2|].
  rewrite (proj2 end_date_derivation _ _ _ H1 H2). vm_compute. reflexivity.
Defined.

(** The lost patient is a candidate. *)
Lemma censor_flag_definition_witness :
  longform [lost_patient] = Some (long_format [lost_patient]) /\
  In (lost_row 2) (long_format [lost_patient]) /\
  eventdate (lost_row 2) = None /\
  maxvisit (lost_row 2) < end_date (lost_row 2) - num_days_censor /\
  censor (lost_row 2) = true.
Proof.
  assert (H1 : longform [lost_patient] = Some (long_format [lost_patient]))
    by (vm_compute; reflexivity).
  assert (H2 : In (lost_row 2) (long_format [lost_patient])) by in_frame.
  assert (H3 : eventdate (lost_row 2) = None) by reflexivity.
  assert (H4 : maxvisit (lost_row 2) < end_date (lost_row 2) - num_days_censor)
    by (vm_compute; reflexivity).
  split; [exact H1|]. split; [exact H2|]. split; [exact H3|].
  split; [exact H4|].
  exact (proj2 (proj2 censor_flag_definition _ _ _ H1 H2) (conj H3 H4)).
Defined.

(** Patient A: origin before the cutoff, event after the origin. *)
Lemma end_date_bounds_witness :
  c_t0 patient_A <= MAX_DATE /\
  (forall e, c_eventdate patient_A = Some e -> c_t0 patient_A <= e) /\
  c_t0 patient_A <= event_end_date patient_A <= MAX_DATE.
Proof.
  assert (H1 : c_t0 patient_A <= MAX_DATE) by (vm_compute; discriminate).
  assert (H2 : forall e, c_eventdate patient_A = Some e -> c_t0 patient_A <= e).
  { intros e He. injection He as <-. vm_compute. discriminate. }
  split; [exact H1|]. split; [exact H2|].
  split.
  - exact (proj2 (proj2 (end_date_bounds patient_A)) (conj H1 H2)).
  - exact (proj1 (end_date_bounds patient_A)).
Defined.

(** Patient A, a sole record with an event date: its last row. *)
Lemma event_patient_uncensored_witness :
  longform [patient_A] = Some (long_format [patient_A]) /\
  sole_record [patient_A] patient_A /\
  c_eventdate patient_A <> None /\
  In (patient_A_row 3) (long_format [patient_A]) /\
  idvar (patient_A_row 3) = c_idvar patient_A /\
  CENS (patient_A_row 3) = 0.
Proof.
  assert (H1 : longform [patient_A] = Some (long_format [patient_A]))
    by (vm_compute; reflexivity).
  assert (H2 : sole_record [patient_A] patient_A) by apply sole_record_single.
  assert (H3 : c_eventdate patient_A <> None) by (simpl; discriminate).
  assert (H4 : In (patient_A_row 3) (long_format [patient_A])) by in_frame.
  assert (H5 : idvar (patient_A_row 3) = c_idvar patient_A) by reflexivity.
  split; [exact H1|]. split; [exact H2|]. split; [exact H3|].
  split; [exact H4|]. split; [exact H5|].
  exact (proj2 (proj1 (@event_patient_uncensored _ _ H1) _ _ H2 H3 H4 H5)).
Defined.

(** The four period boundaries of patient A. *)
Lemma expansion_periods_witness :
  sole_record [patient_A] patient_A /\
  c_t0 patient_A <= event_end_date patient_A /\
  map (fun p : panel_row => (month p, t p)) (untruncated [patient_A])
  = [ (0%nat, to_datetime 2018 1 1); (1%nat, to_datetime 2018 1 31);
      (2%nat, to_datetime 2018 3 2); (3%nat, to_datetime 2018 4 1) ].
Proof.
  assert (H1 : sole_record [patient_A] patient_A)
    by apply sole_record_single.
  assert (H2 : c_t0 patient_A <= event_end_date patient_A)
    by (vm_compute; discriminate).
  split; [exact H1|]. split; [exact H2|].
  pose proof (proj1 (expansion_periods H1 H2)) as H.
  vm_compute in H. vm_compute. exact H.
Defined.


(** The lost patient has a [censor_t] not before the censoring date. *)
Lemma truncation_contract_witness :
  longform [lost_patient] = Some (long_format [lost_patient]) /\
  sole_record [lost_patient] lost_patient /\
  In (lost_row 0) (untruncated [lost_patient]) /\
  idvar (lost_row 0) = c_idvar lost_patient /\
  censor_date (lost_row 0) = Some (to_datetime 2019 2 10) /\
  exists ct, censor_t (lost_row 0) = Some ct /\ to_datetime 2019 2 10 <= ct.
Proof.
  assert (H1 : longform [lost_patient] = Some (long_format [lost_patient]))
    by (vm_compute; reflexivity).
  assert (H2 : sole_record [lost_patient] lost_patient)
    by apply sole_record_single.
  assert (H3 : In (lost_row 0) (untruncated [lost_patient])) by in_frame.
  assert (H4 : idvar (lost_row 0) = c_idvar lost_patient) by reflexivity.
  assert (H5 : censor_date (lost_row 0) = Some (to_datetime 2019 2 10))
    by reflexivity.
  split; [exact H1|]. split; [exact H2|]. split; [exact H3|].
  split; [exact H4|]. split; [exact H5|].
  destruct (proj1 (truncation_contract _ H1) _ _ _ H2 H3 H4 H5)
    as (ct & K1 & K2 & _).
  exists ct. exact (conj K1 K2).
Defined.

(** The censored row of the lost patient is its last row. *)
Lemma censored_row_is_last_witness :
  longform [lost_patient] = Some (long_format [lost_patient]) /\
  sole_record [lost_patient] lost_patient /\
  In (lost_row 2) (long_format [lost_patient]) /\
  idvar (lost_row 2) = c_idvar lost_patient /\
  In (lost_row 0) (long_format [lost_patient]) /\
  idvar (lost_row 0) = c_idvar lost_patient /\
  CENS (lost_row 2) = 1 /\
  (month (lost_row 0) <= month (lost_row 2))%nat.
Proof.
  assert (H1 : longform [lost_patient] = Some (long_format [lost_patient]))
    by (vm_compute; reflexivity).
  assert (H2 : sole_record [lost_patient] lost_patient)
    by apply sole_record_single.
  assert (H3 : In (lost_row 2) (long_format [lost_patient])) by in_frame.
  assert (H4 : idvar (lost_row 2) = c_idvar lost_patient) by reflexivity.
  assert (H5 : In (lost_row 0) (long_format [lost_patient])) by in_frame.
  assert (H6 : idvar (lost_row 0) = c_idvar lost_patient) by reflexivity.
  assert (H7 : CENS (lost_row 2) = 1) by reflexivity.
  split; [exact H1|]. split; [exact H2|]. split; [exact H3|].
  split; [exact H4|]. split; [exact H5|]. split; [exact H6|].
  split; [exact H7|].
  exact (proj1 (@censored_row_is_last _ _ _ _ _ H1 H2 H3 H4 H5 H6 H7)).
Defined.

(** * Further properties of the script *)

(** ** Duplicate rows *)

Section Repeats.
Variable A : Type.
Variable eqb : A -> A -> bool.
Hypothesis eqb_refl : forall a, eqb a a = true.
Hypothesis eqb_eq : forall a b, eqb a b = true -> a = b.

(** A row that repeats an earlier one leaves no trace. *)
Lemma drop_duplicates_repeat (l1 l2 : list A) (c : A) :
  In c l1 ->
  drop_duplicates eqb (l1 ++ c :: l2) = drop_duplicates eqb (l1 ++ l2).
Proof.
  induction l1 as [|r l1 IH]; simpl; [contradiction|].
  intros [->|Hc].
  - f_equal. rewrite !(@filter_drop_duplicates _ _ eqb_eq), !filter_app. simpl.
    now rewrite eqb_refl.
  - now rewrite IH.
Qed.
End Repeats.

(** X2. A cohort row that repeats an earlier cohort row in all four
    columns does not change what the script writes. *)
Theorem repeated_row_ignored (l1 l2 : list cohort_row) (c : cohort_row) :
  In c l1 -> longform (l1 ++ c :: l2) = longform (l1 ++ l2).
Proof.
  intros Hc.
  assert (Hw : wide_frame (l1 ++ c :: l2) = wide_frame (l1 ++ l2)).
  { unfold wide_frame.
    now apply (@drop_duplicates_repeat _ _ cohort_eqb_refl cohort_eqb_eq). }
  unfold longform, long_format, untruncated. now rewrite Hw.
Qed.

(** ** Where the rows come from *)

Lemma periods_bound (c : cohort_row) (i : nat) :
  (i < periods c)%nat ->
  c_t0 c + NUM_DAYS * Z.of_nat i <= event_end_date c + NUM_DAYS.
Proof.
  unfold periods. config_values.
  set (q := (event_end_date c + 30 - c_t0 c) / 30). intros Hi.
  assert (Hq : Z.of_nat i < q + 1) by lia.
  clear Hi. subst q. Z.div_mod_to_equations. lia.
Qed.

Lemma event_end_date_upper (c : cohort_row) :
  event_end_date c <= c_t0 c + MAX_DAYS /\ event_end_date c <= MAX_DATE.
Proof.
  rewrite event_end_date_cases. destruct (c_eventdate c); lia.
Qed.

(** X4. Every row of the written panel copies the four input columns of
    some cohort row; its period start is the origin date plus a whole
    number of periods, not before the origin date and at most one period
    after the end date, hence at most [MAX_DAYS + NUM_DAYS] days after
    the origin date and at most one period after the cutoff. *)
Theorem panel_row_provenance
        (cohort : list cohort_row) (panel : list panel_row) (p : panel_row) :
  longform cohort = Some panel -> In p panel ->
  (exists c i,
      In c cohort /\
      idvar p = c_idvar c /\ t0 p = c_t0 c /\
      eventdate p = c_eventdate c /\ maxvisit p = c_maxvisit c /\
      t p = t0 p + NUM_DAYS * Z.of_nat i) /\
  t0 p <= t p <= end_date p + NUM_DAYS /\
  t p <= t0 p + MAX_DAYS + NUM_DAYS /\
  t p <= MAX_DATE + NUM_DAYS.
Proof.
  intros Hrun Hp. apply longform_rows in Hrun. subst panel.
  apply long_format_In in Hp. destruct Hp as [Hp _].
  apply untruncated_In in Hp. destruct Hp as (c & i & Hc & Hi & Hr & _).
  pose proof (periods_bound c Hi) as Hb.
  destruct (event_end_date_upper c) as [Hu Hm].
  rewrite Hr. cbn [idvar t0 eventdate maxvisit t end_date row_of].
  split; [exists c, i; auto 10|].
  config_values. lia.
Qed.

(** ** The event indicator *)

Lemma EVENT_col_cases (r : long_row) :
  (EVENT_col r = None <-> CENS_col r = 1) /\
  (EVENT_col r = Some 1 <-> exists e, eventdate r = Some e /\ e <= t r) /\
  (EVENT_col r = None \/ EVENT_col r = Some 0 \/ EVENT_col r = Some 1).
Proof.
  unfold EVENT_col, CENS_col, past_grace, isnaevent, on_or_after.
  destruct (eventdate r) as [e|]; simpl.
  - destruct (e <=? t r) eqn:E; (split; [|split]).
    + split; discriminate.
    + split; [|reflexivity]. intros _. exists e. apply Z.leb_le in E. auto.
    + auto.
    + split; discriminate.
    + split; [discriminate|]. intros (e' & He & Hle). injection He as <-.
      apply Z.leb_gt in E. lia.
    + auto.
  - destruct (censored r && (maxvisit r + num_days_censor <? t r));
      (split; [|split]).
    + split; reflexivity.
    + split; [discriminate|]. intros (e & He & _). discriminate.
    + auto.
    + split; discriminate.
    + split; [discriminate|]. intros (e & He & _). discriminate.
    + auto.
Qed.

(** X5. On every row of the written panel [EVENT] is NaN, 0 or 1; it is
    NaN exactly on the rows with [CENS = 1], and it is 1 exactly on the
    rows that carry an event date not after the period start. *)
Theorem EVENT_values
        (cohort : list cohort_row) (panel : list panel_row) (p : panel_row) :
  longform cohort = Some panel -> In p panel ->
  (EVENT p = None <-> CENS p = 1) /\
  (EVENT p = Some 1 <-> exists e, eventdate p = Some e /\ e <= t p) /\
  (EVENT p = None \/ EVENT p = Some 0 \/ EVENT p = Some 1).
Proof.
  intros Hrun Hp. apply longform_rows in Hrun. subst panel.
  apply long_format_In in Hp. destruct Hp as [Hp _].
  destruct (untruncated_columns _ _ Hp) as (_ & HE & HC & _).
  rewrite HE, HC. apply EVENT_col_cases.
Qed.

(** ** What truncation keeps *)

Lemma censor_t_col_some (df : list long_row) (r : long_row) (ct : Z) :
  censor_t_col df r = Some ct ->
  censor r = true /\ maxvisit r + num_days_censor <= ct.
Proof.
  unfold censor_t_col.
  destruct (censor_date_col r) as [d|] eqn:Hd; [|discriminate].
  destruct (group_censor_days df r) as [n|] eqn:Hn; [|discriminate].
  intros H. injection H as <-.
  apply censor_date_col_some in Hd. destruct Hd as [Hc ->].
  destruct (group_censor_days_spec _ _ Hn) as (Hn0 & _).
  split; [assumption | lia].
Qed.

Lemma kept_to_censor_date (cohort : list cohort_row) (p : panel_row) :
  In p (untruncated cohort) ->
  (forall cd, censor_date p = Some cd -> t p <= cd) ->
  In p (long_format cohort).
Proof.
  intros Hp Hcd. apply long_format_In. split; [assumption|].
  destruct (untruncated_columns _ _ Hp) as (_ & _ & _ & Hcd' & Hct).
  apply retained_iff. intros ct E. rewrite Hct in E.
  apply censor_t_col_some in E. destruct E as [Hc Hle].
  assert (t p <= maxvisit p + num_days_censor).
  { apply Hcd. rewrite Hcd'. now apply censor_date_col_some. }
  lia.
Qed.

(** X6. Truncation never cuts before the censoring date: a generated row
    without censoring date, or with a period start not after its
    censoring date, is written, whatever the other rows of the cohort. *)
Theorem rows_to_censor_date_kept
        (cohort : list cohort_row) (panel : list panel_row) (p : panel_row) :
  longform cohort = Some panel ->
  In p (untruncated cohort) ->
  (forall cd, censor_date p = Some cd -> t p <= cd) ->
  In p panel.
Proof.
  intros Hrun Hp Hcd. apply longform_rows in Hrun. subst panel.
  now apply kept_to_censor_date.
Qed.

(** X7. Rows that carry an event date are never truncated. *)
Theorem event_rows_kept
        (cohort : list cohort_row) (panel : list panel_row) (p : panel_row) :
  longform cohort = Some panel ->
  In p (untruncated cohort) -> eventdate p <> None ->
  In p panel /\ censor_date p = None /\ censor_t p = None.
Proof.
  intros Hrun Hp He. apply longform_rows in Hrun. subst panel.
  destruct (untruncated_columns _ _ Hp) as (_ & _ & _ & Hcd & Hct).
  assert (Hc : censor p = false).
  { destruct (censor p) eqn:E; [|reflexivity].
    destruct (candidate_row _ _ Hp E). contradiction. }
  assert (Hnone : censor_date p = None).
  { rewrite Hcd. now apply censor_date_col_none. }
  split; [|split; [exact Hnone|]].
  - apply kept_to_censor_date; [assumption|]. intros cd E. congruence.
  - rewrite Hct. unfold censor_t_col. now rewrite <- Hcd, Hnone.
Qed.

(** ** The written rows of a patient with a single cohort row *)

Lemma censor_t_col_group (df df' : list long_row) (r : long_row) :
  group df (idvar r) = group df' (idvar r) ->
  censor_t_col df r = censor_t_col df' r.
Proof.
  unfold censor_t_col, group_censor_days. now intros ->.
Qed.

Lemma retained_row_of_antitone (df : list long_row) (c : cohort_row)
      (i j : nat) :
  (i <= j)%nat ->
  retained (assign df (row_of c j, j)) = true ->
  retained (assign df (row_of c i, i)) = true.
Proof.
  intros Hij. unfold retained, assign. cbn [censor_t row fst snd].
  change (censor_t_col df (row_of c j)) with (censor_t_col df (row_of c i)).
  destruct (censor_t_col df (row_of c i)) as [ct|]; [|reflexivity].
  rewrite !Z.leb_le. cbn [t row_of]. config_values. lia.
Qed.

Lemma filter_seq_prefix (A : Type) (g : nat -> A) (P : A -> bool) (n : nat) :
  (forall i j, (i <= j)%nat -> P (g j) = true -> P (g i) = true) ->
  exists k, (k <= n)%nat /\ filter P (map g (seq 0 n)) = map g (seq 0 k).
Proof.
  intros Hanti. induction n as [|n [k [Hk IH]]].
  - exists 0%nat. split; [lia | reflexivity].
  - rewrite seq_S, map_app, filter_app. simpl.
    destruct (P (g n)) eqn:E.
    + exists (S n). split; [lia|].
      rewrite seq_S, map_app. simpl. f_equal.
      apply filter_all. intros x Hx. apply in_map_iff in Hx.
      destruct Hx as (i & <- & Hi). apply in_seq in Hi.
      apply (Hanti i n); [lia | assumption].
    + exists k. split; [lia|]. now rewrite app_nil_r.
Qed.

Lemma periods_pos (c : cohort_row) :
  (0 < periods c)%nat <-> c_t0 c <= event_end_date c + NUM_DAYS.
Proof.
  unfold periods. config_values.
  set (q := (event_end_date c + 30 - c_t0 c) / 30).
  assert (Hq : 0 <= q <-> c_t0 c <= event_end_date c + 30).
  { subst q. Z.div_mod_to_equations. lia. }
  lia.
Qed.

(** The written rows of a sole record are the first [k] generated rows,
    and there is at least one of them when a row was generated at all. *)
Lemma sole_record_panel (cohort : list cohort_row) (c : cohort_row) :
  sole_record cohort c ->
  exists k,
    (k <= periods c)%nat /\ (0 < periods c -> 0 < k)%nat /\
    filter (fun p : panel_row => idvar p =? c_idvar c) (long_format cohort)
    = map (fun i => assign (long_frame (wide_frame cohort)) (row_of c i, i))
          (seq 0 k).
Proof.
  intros Hsole. unfold long_format.
  rewrite filter_swap, (sole_record_rows Hsole).
  set (g := fun i => assign (long_frame (wide_frame cohort)) (row_of c i, i)).
  destruct (filter_seq_prefix g retained (periods c)) as (k & Hk & E).
  { intros i j Hij. apply retained_row_of_antitone. exact Hij. }
  exists k. split; [assumption|]. split; [|exact E].
  intros Hpos. destruct k as [|k]; [|lia]. exfalso.
  assert (Hin : In (g 0%nat) (filter retained (map g (seq 0 (periods c))))).
  { apply filter_In. split.
    - apply in_map_iff. exists 0%nat. split; [reflexivity | apply in_seq; lia].
    - apply retained_iff. intros ct Hct.
      destruct (sole_record_untruncated Hsole Hpos) as (q & Hq & Hqr & Hqm).
      assert (Hqg : q = g 0%nat).
      { destruct (sole_record_row q Hsole Hq) as [_ Eq].
        - rewrite Hqr. reflexivity.
        - rewrite Eq, Hqm. reflexivity. }
      rewrite <- Hqg in *.
      destruct (untruncated_columns _ _ Hq) as (_ & _ & _ & _ & Hct').
      rewrite Hct' in Hct. pose proof (censor_t_col_some _ _ Hct) as [Hc _].
      destruct (sole_record_censor_t q Hsole Hq) as (ct' & E' & _ & (q' & Hq' & Hid' & Ht') & _).
      { rewrite Hqr. reflexivity. }
      { exact Hc. }
      rewrite Hct', Hct in E'. injection E' as <-.
      assert (Hid'' : idvar q' = c_idvar c).
      { rewrite Hid', Hqr. reflexivity. }
      destruct (sole_record_fields q' Hsole Hq' Hid'') as [_ Hr'].
      rewrite <- Ht', Hr', Hqr. cbn [t row_of]. config_values. lia. }
  rewrite E in Hin. contradiction.
Qed.

(** X8. The written rows of a patient whose cohort row is the only one
    of its identifier are those the script writes for that cohort row
    alone: they do not depend on the other patients. *)
Theorem patient_rows_independent (cohort : list cohort_row) (c : cohort_row) :
  sole_record cohort c ->
  filter (fun p : panel_row => idvar p =? c_idvar c) (long_format cohort)
  = long_format [c].
Proof.
  intros Hsole. pose proof (sole_record_single c) as Hone.
  assert (Hall : filter (fun p : panel_row => idvar p =? c_idvar c)
                        (untruncated [c]) = untruncated [c]).
  { apply filter_all. intros p Hp. apply untruncated_In in Hp.
    destruct Hp as (c' & i & [<-|[]] & _ & Hr & _). rewrite Hr.
    apply Z.eqb_refl. }
  unfold long_format at 2. rewrite <- Hall, (sole_record_rows Hone).
  unfold long_format. rewrite filter_swap, (sole_record_rows Hsole).
  f_equal. apply map_ext. intros i. unfold assign. cbn [fst snd]. f_equal.
  apply censor_t_col_group. cbn [idvar row_of].
  now rewrite (sole_record_group Hsole), (sole_record_group Hone).
Qed.

(** X9. In the written panel the rows of a patient whose cohort row is
    the only one of its identifier carry, in order, the period indices
    0, 1, 2, ... without gap and the period start origin + index * period
    length: truncation removes a tail of the generated rows. *)
Theorem panel_periods_contiguous
        (cohort : list cohort_row) (panel : list panel_row) (c : cohort_row) :
  longform cohort = Some panel ->
  sole_record cohort c ->
  let rows := filter (fun p : panel_row => idvar p =? c_idvar c) panel in
  map (fun p : panel_row => (month p, t p)) rows
  = map (fun i => (i, c_t0 c + Z.of_nat i * NUM_DAYS)) (seq 0 (length rows)).
Proof.
  intros Hrun Hsole rows. apply longform_rows in Hrun. subst panel rows.
  destruct (sole_record_panel Hsole) as (k & _ & _ & E). rewrite E.
  rewrite length_map, length_seq, map_map.
  apply map_ext. intros i. cbn [assign month row fst snd t row_of].
  now rewrite Z.mul_comm.
Qed.

(** X10. A patient whose cohort row is the only one of its identifier is
    present in the written panel exactly when its origin date is at most
    one period after its end date, and then its row with period index 0,
    starting on the origin date, is written. *)
Theorem patient_present_iff
        (cohort : list cohort_row) (panel : list panel_row) (c : cohort_row) :
  longform cohort = Some panel ->
  sole_record cohort c ->
  ((exists p : panel_row, In p panel /\ idvar p = c_idvar c) <->
   c_t0 c <= event_end_date c + NUM_DAYS) /\
  (c_t0 c <= event_end_date c + NUM_DAYS ->
   exists p : panel_row,
     In p panel /\ idvar p = c_idvar c /\ month p = 0%nat /\ t p = c_t0 c).
Proof.
  intros Hrun Hsole. apply longform_rows in Hrun. subst panel.
  assert (Hfirst : c_t0 c <= event_end_date c + NUM_DAYS ->
                   exists p : panel_row,
                     In p (long_format cohort) /\ idvar p = c_idvar c /\
                     month p = 0%nat /\ t p = c_t0 c).
  { intros Hle. apply periods_pos in Hle.
    destruct (sole_record_panel Hsole) as (k & _ & Hk & E).
    specialize (Hk Hle).
    exists (assign (long_frame (wide_frame cohort)) (row_of c 0, 0%nat)).
    split; [|split; [reflexivity | split; [reflexivity|]]].
    - assert (Hin : In (assign (long_frame (wide_frame cohort))
                               (row_of c 0, 0%nat))
                       (filter (fun p : panel_row => idvar p =? c_idvar c)
                               (long_format cohort))).
      { rewrite E. apply in_map_iff. exists 0%nat.
        split; [reflexivity | apply in_seq; lia]. }
      apply filter_In in Hin. tauto.
    - cbn [assign row fst t row_of]. config_values. lia. }
  split; [|exact Hfirst]. split.
  - intros (p & Hp & Hid). apply long_format_In in Hp. destruct Hp as [Hp _].
    destruct (sole_record_fields p Hsole Hp Hid) as [Hm _].
    apply periods_pos. lia.
  - intros Hle. destruct (Hfirst Hle) as (p & Hp & Hid & _). eauto.
Qed.

(** X11. Within the written rows of a patient whose cohort row is the
    only one of its identifier, [EVENT] never goes back from 1: once a
    row has [EVENT = 1], every row with a later period index has it. *)
Theorem EVENT_monotone
        (cohort : list cohort_row) (panel : list panel_row)
        (c : cohort_row) (p q : panel_row) :
  longform cohort = Some panel ->
  sole_record cohort c ->
  In p panel -> idvar p = c_idvar c ->
  In q panel -> idvar q = c_idvar c ->
  (month p <= month q)%nat ->
  EVENT p = Some 1 -> EVENT q = Some 1.
Proof.
  intros Hrun Hsole Hp Hpid Hq Hqid Hm He.
  apply longform_rows in Hrun. subst panel.
  apply long_format_In in Hp. destruct Hp as [Hp _].
  apply long_format_In in Hq. destruct Hq as [Hq _].
  destruct (untruncated_columns _ _ Hp) as (_ & HEp & _).
  destruct (untruncated_columns _ _ Hq) as (_ & HEq & _).
  destruct (sole_record_fields p Hsole Hp Hpid) as [_ Hpr].
  destruct (sole_record_fields q Hsole Hq Hqid) as [_ Hqr].
  rewrite HEp in He. apply EVENT_col_cases in He. destruct He as (e & He & Hle).
  rewrite HEq. apply EVENT_col_cases. exists e.
  rewrite Hpr in He, Hle. rewrite Hqr. cbn [eventdate t row_of] in *.
  split; [assumption|]. config_values. lia.
Qed.

(** X12. An event inside follow-up is always written: for a patient whose
    cohort row is the only one of its identifier, with an event date not
    after the cutoff and at most [MAX_DAYS] after the origin date, and an
    origin date at most one period after the event date, the panel holds
    a row with [EVENT = 1] that starts after the event date and at most
    one period after it. *)
Theorem event_is_written
        (cohort : list cohort_row) (panel : list panel_row)
        (c : cohort_row) (e : Z) :
  longform cohort = Some panel ->
  sole_record cohort c ->
  c_eventdate c = Some e ->
  e <= MAX_DATE -> e <= c_t0 c + MAX_DAYS -> c_t0 c <= e + NUM_DAYS ->
  exists p : panel_row,
    In p panel /\ idvar p = c_idvar c /\
    EVENT p = Some 1 /\ CENS p = 0 /\ e < t p <= e + NUM_DAYS.
Proof.
  intros Hrun Hsole He Hcut Hmax Horigin.
  apply longform_rows in Hrun. subst panel.
  assert (Hend : event_end_date c = e).
  { rewrite event_end_date_cases, He. lia. }
  assert (Hpos : (0 < periods c)%nat).
  { apply periods_pos. now rewrite Hend. }
  destruct (periods_last c Hpos) as [Hlast _]. rewrite Hend in Hlast.
  assert (Hl : (pred (periods c) < periods c)%nat) by lia.
  destruct (sole_record_untruncated Hsole Hl) as (q & Hq & Hqr & _).
  destruct (untruncated_columns _ _ Hq) as (_ & HE & HC & _).
  assert (Hev : eventdate q = Some e) by (rewrite Hqr; exact He).
  assert (Ht : e < t q <= e + NUM_DAYS).
  { rewrite Hqr. cbn [t row_of].
    replace (Z.of_nat (pred (periods c)))
      with (Z.of_nat (periods c) - 1) by lia. exact Hlast. }
  exists q. split; [|split; [|split; [|split]]].
  - destruct (untruncated_columns _ _ Hq) as (_ & _ & _ & Hcd & _).
    apply kept_to_censor_date; [assumption|].
    intros cd E. exfalso. rewrite Hcd in E.
    apply censor_date_col_some in E. destruct E as [E _].
    destruct (candidate_row _ _ Hq E). congruence.
  - rewrite Hqr. reflexivity.
  - rewrite HE. apply EVENT_col_cases. exists e. split; [assumption | lia].
  - rewrite HC. apply CENS_col_zero.
    destruct (past_grace q) eqn:E; [|reflexivity].
    apply past_grace_iff in E. destruct E as [E _]. congruence.
  - exact Ht.
Qed.

(** X13. For a patient whose cohort row is the only one of its
    identifier and whose end date is not before the origin date, the
    expansion generates [(end_date - t0) / NUM_DAYS + 2] rows, at most
    [MAX_DAYS / NUM_DAYS + 2 = 74]; the written panel holds at least one
    and at most that many of them. *)
Theorem patient_row_count
        (cohort : list cohort_row) (panel : list panel_row) (c : cohort_row) :
  longform cohort = Some panel ->
  sole_record cohort c ->
  c_t0 c <= event_end_date c ->
  let same := fun p : panel_row => idvar p =? c_idvar c in
  Z.of_nat (length (filter same (untruncated cohort)))
  = (event_end_date c - c_t0 c) / NUM_DAYS + 2 /\
  (length (filter same (untruncated cohort)) <= 74)%nat /\
  (1 <= length (filter same panel)
   <= length (filter same (untruncated cohort)))%nat.
Proof.
  intros Hrun Hsole Hle same. apply longform_rows in Hrun. subst panel same.
  rewrite (sole_record_rows Hsole), length_map, length_seq.
  destruct (sole_record_panel Hsole) as (k & Hk & Hk0 & E).
  rewrite E, length_map, length_seq.
  destruct (event_end_date_upper c) as [Hu _].
  assert (Hn : Z.of_nat (periods c)
               = (event_end_date c - c_t0 c) / NUM_DAYS + 2).
  { unfold periods. revert Hle Hu. config_values. intros Hle Hu.
    rewrite Z2Nat.id; Z.div_mod_to_equations; lia. }
  assert (Hb : (event_end_date c - c_t0 c) / NUM_DAYS <= 72).
  { revert Hle Hu. config_values. intros Hle Hu.
    Z.div_mod_to_equations. lia. }
  split; [exact Hn|].
  set (d := (event_end_date c - c_t0 c) / NUM_DAYS) in *.
  assert (Hd : 0 <= d).
  { subst d. revert Hle. config_values. intros Hle.
    Z.div_mod_to_equations. lia. }
  split; [lia|].
  assert (Hpos : (0 < periods c)%nat) by lia. specialize (Hk0 Hpos). lia.
Qed.

Lemma max_seq (n a : nat) :
  fold_right Nat.max 0%nat (seq a (S n)) = (a + n)%nat.
Proof.
  revert a. induction n as [|n IH]; intros a.
  - simpl. lia.
  - change (seq a (S (S n))) with (a :: seq (S a) (S n)).
    cbn [fold_right]. rewrite IH. lia.
Qed.

(** X14. The column [tt] of lines 122-123 (the largest period index of
    the patient in the written frame) is, for a patient whose cohort row
    is the only one of its identifier, the number of written rows of the
    patient minus one. *)
Theorem tt_counts_rows
        (cohort : list cohort_row) (panel : list panel_row)
        (c : cohort_row) (p : panel_row) :
  longform cohort = Some panel ->
  sole_record cohort c ->
  In p panel -> idvar p = c_idvar c ->
  S (tt_col panel p)
  = length (filter (fun q : panel_row => idvar q =? c_idvar c) panel)
  /\ (month p <= tt_col panel p)%nat.
Proof.
  intros Hrun Hsole Hp Hid. apply longform_rows in Hrun. subst panel.
  unfold tt_col. rewrite Hid.
  assert (Hin : In p (filter (fun q : panel_row => idvar q =? c_idvar c)
                             (long_format cohort))).
  { apply filter_In. split; [assumption | now apply Z.eqb_eq]. }
  destruct (sole_record_panel Hsole) as (k & _ & _ & E).
  rewrite E in *. rewrite map_map, length_map, length_seq.
  cbn [assign month snd]. rewrite map_id.
  apply in_map_iff in Hin. destruct Hin as (i & <- & Hi).
  apply in_seq in Hi. cbn [assign month snd].
  destruct k as [|k]; [lia|]. rewrite max_seq. lia.
Qed.

(** ** Instances *)

Lemma mixed_cohort_sole : sole_record mixed_cohort lost_patient.
Proof.
  split; [right; left; reflexivity|].
  intros c' [<-|[<-|[<-|[]]]] H; vm_compute in H;
    try discriminate; reflexivity.
Qed.

(** Patient A listed twice. *)
Lemma repeated_row_ignored_witness :
  In patient_A [patient_A] /\
  longform ([patient_A] ++ patient_A :: [lost_patient])
  = longform ([patient_A] ++ [lost_patient]).
Proof.
  assert (H : In patient_A [patient_A]) by (left; reflexivity).
  split; [exact H|].
  exact (repeated_row_ignored [patient_A] [lost_patient] patient_A H).
Defined.

(** The last row of patient A starts within one period of its end date. *)
Lemma panel_row_provenance_witness :
  longform [patient_A] = Some (long_format [patient_A]) /\
  In (patient_A_row 3) (long_format [patient_A]) /\
  t0 (patient_A_row 3) <= t (patient_A_row 3)
  <= end_date (patient_A_row 3) + NUM_DAYS.
Proof.
  assert (H1 : longform [patient_A] = Some (long_format [patient_A]))
    by (vm_compute; reflexivity).
  assert (H2 : In (patient_A_row 3) (long_format [patient_A])) by in_frame.
  split; [exact H1|]. split; [exact H2|].
  exact (proj1 (proj2 (@panel_row_provenance _ _ _ H1 H2))).
Defined.

(** The last row of patient A is not NaN in [EVENT]. *)
Lemma EVENT_values_witness :
  longform [patient_A] = Some (long_format [patient_A]) /\
  In (patient_A_row 3) (long_format [patient_A]) /\
  (EVENT (patient_A_row 3) = None <-> CENS (patient_A_row 3) = 1).
Proof.
  assert (H1 : longform [patient_A] = Some (long_format [patient_A]))
    by (vm_compute; reflexivity).
  assert (H2 : In (patient_A_row 3) (long_format [patient_A])) by in_frame.
  split; [exact H1|]. split; [exact H2|].
  exact (proj1 (@EVENT_values _ _ _ H1 H2)).
Defined.

(** The first row of the lost patient is before its censoring date. *)
Lemma rows_to_censor_date_kept_witness :
  longform [lost_patient] = Some (long_format [lost_patient]) /\
  In (lost_row 0) (untruncated [lost_patient]) /\
  (forall cd, censor_date (lost_row 0) = Some cd -> t (lost_row 0) <= cd) /\
  In (lost_row 0) (long_format [lost_patient]).
Proof.
  assert (H1 : longform [lost_patient] = Some (long_format [lost_patient]))
    by (vm_compute; reflexivity).
  assert (H2 : In (lost_row 0) (untruncated [lost_patient])) by in_frame.
  assert (H3 : forall cd, censor_date (lost_row 0) = Some cd ->
                          t (lost_row 0) <= cd).
  { intros cd E. vm_compute in E. injection E as <-.
    vm_compute. discriminate. }
  split; [exact H1|]. split; [exact H2|]. split; [exact H3|].
  exact (@rows_to_censor_date_kept _ _ _ H1 H2 H3).
Defined.

(** The first row of patient A is written. *)
Lemma event_rows_kept_witness :
  longform [patient_A] = Some (long_format [patient_A]) /\
  In (patient_A_row 0) (untruncated [patient_A]) /\
  eventdate (patient_A_row 0) <> None /\
  In (patient_A_row 0) (long_format [patient_A]).
Proof.
  assert (H1 : longform [patient_A] = Some (long_format [patient_A]))
    by (vm_compute; reflexivity).
  assert (H2 : In (patient_A_row 0) (untruncated [patient_A])) by in_frame.
  assert (H3 : eventdate (patient_A_row 0) <> None) by (simpl; discriminate).
  split; [exact H1|]. split; [exact H2|]. split; [exact H3|].
  exact (proj1 (@event_rows_kept _ _ _ H1 H2 H3)).
Defined.

(** The lost patient among two other patients. *)
Lemma patient_rows_independent_witness :
  sole_record mixed_cohort lost_patient /\
  filter (fun p : panel_row => idvar p =? c_idvar lost_patient)
         (long_format mixed_cohort)
  = long_format [lost_patient].
Proof.
  split; [exact mixed_cohort_sole|].
  exact (@patient_rows_independent _ _ mixed_cohort_sole).
Defined.

Lemma panel_periods_contiguous_witness :
  longform mixed_cohort = Some (long_format mixed_cohort) /\
  sole_record mixed_cohort lost_patient /\
  map (fun p : panel_row => (month p, t p))
      (filter (fun p : panel_row => idvar p =? c_idvar lost_patient)
              (long_format mixed_cohort))
  = [ (0%nat, to_datetime 2019 1 1); (1%nat, to_datetime 2019 1 31);
      (2%nat, to_datetime 2019 3 2) ].
Proof.
  assert (H1 : longform mixed_cohort = Some (long_format mixed_cohort))
    by (vm_compute; reflexivity).
  split; [exact H1|]. split; [exact mixed_cohort_sole|].
  pose proof (@panel_periods_contiguous _ _ _ H1 mixed_cohort_sole) as H.
  vm_compute in H. vm_compute. exact H.
Defined.

Lemma patient_present_iff_witness :
  longform mixed_cohort = Some (long_format mixed_cohort) /\
  sole_record mixed_cohort lost_patient /\
  c_t0 lost_patient <= event_end_date lost_patient + NUM_DAYS /\
  exists p : panel_row,
    In p (long_format mixed_cohort) /\ idvar p = c_idvar lost_patient /\
    month p = 0%nat /\ t p = c_t0 lost_patient.
Proof.
  assert (H1 : longform mixed_cohort = Some (long_format mixed_cohort))
    by (vm_compute; reflexivity).
  assert (H2 : c_t0 lost_patient <= event_end_date lost_patient + NUM_DAYS)
    by (vm_compute; discriminate).
  split; [exact H1|]. split; [exact mixed_cohort_sole|]. split; [exact H2|].
  exact (proj2 (@patient_present_iff _ _ _ H1 mixed_cohort_sole) H2).
Defined.

(** The event date of [boundary_event_patient] is its second period
    boundary: the rows with period index 1 and 2 both have [EVENT = 1]. *)
Lemma EVENT_monotone_witness :
  longform [boundary_event_patient]
  = Some (long_format [boundary_event_patient]) /\
  sole_record [boundary_event_patient] boundary_event_patient /\
  In (boundary_event_row 1) (long_format [boundary_event_patient]) /\
  idvar (boundary_event_row 1) = c_idvar boundary_event_patient /\
  In (boundary_event_row 2) (long_format [boundary_event_patient]) /\
  idvar (boundary_event_row 2) = c_idvar boundary_event_patient /\
  (month (boundary_event_row 1) <= month (boundary_event_row 2))%nat /\
  EVENT (boundary_event_row 1) = Some 1 /\
  EVENT (boundary_event_row 2) = Some 1.
Proof.
  assert (H1 : longform [boundary_event_patient]
               = Some (long_format [boundary_event_patient]))
    by (vm_compute; reflexivity).
  assert (H2 : sole_record [boundary_event_patient] boundary_event_patient)
    by apply sole_record_single.
  assert (H3 : In (boundary_event_row 1)
                  (long_format [boundary_event_patient])) by in_frame.
  assert (H4 : idvar (boundary_event_row 1) = c_idvar boundary_event_patient)
    by reflexivity.
  assert (H5 : In (boundary_event_row 2)
                  (long_format [boundary_event_patient])) by in_frame.
  assert (H6 : idvar (boundary_event_row 2) = c_idvar boundary_event_patient)
    by reflexivity.
  assert (H7 : (month (boundary_event_row 1)
                <= month (boundary_event_row 2))%nat)
    by (simpl; apply le_S, le_n).
  assert (H8 : EVENT (boundary_event_row 1) = Some 1)
    by (vm_compute; reflexivity).
  split; [exact H1|]. split; [exact H2|]. split; [exact H3|].
  split; [exact H4|]. split; [exact H5|]. split; [exact H6|].
  split; [exact H7|]. split; [exact H8|].
  exact (@EVENT_monotone _ _ _ _ _ H1 H2 H3 H4 H5 H6 H7 H8).
Defined.

Lemma event_is_written_witness :
  longform [patient_A] = Some (long_format [patient_A]) /\
  sole_record [patient_A] patient_A /\
  c_eventdate patient_A = Some (to_datetime 2018 3 15) /\
  to_datetime 2018 3 15 <= MAX_DATE /\
  to_datetime 2018 3 15 <= c_t0 patient_A + MAX_DAYS /\
  c_t0 patient_A <= to_datetime 2018 3 15 + NUM_DAYS /\
  exists p : panel_row,
    In p (long_format [patient_A]) /\ EVENT p = Some 1.
Proof.
  assert (H1 : longform [patient_A] = Some (long_format [patient_A]))
    by (vm_compute; reflexivity).
  assert (H2 : sole_record [patient_A] patient_A) by apply sole_record_single.
  assert (H3 : c_eventdate patient_A = Some (to_datetime 2018 3 15))
    by reflexivity.
  assert (H4 : to_datetime 2018 3 15 <= MAX_DATE)
    by (vm_compute; discriminate).
  assert (H5 : to_datetime 2018 3 15 <= c_t0 patient_A + MAX_DAYS)
    by (vm_compute; discriminate).
  assert (H6 : c_t0 patient_A <= to_datetime 2018 3 15 + NUM_DAYS)
    by (vm_compute; discriminate).
  split; [exact H1|]. split; [exact H2|]. split; [exact H3|].
  split; [exact H4|]. split; [exact H5|]. split; [exact H6|].
  destruct (@event_is_written _ _ _ _ H1 H2 H3 H4 H5 H6)
    as (p & K1 & _ & K3 & _).
  exists p. exact (conj K1 K3).
Defined.

Lemma patient_row_count_witness :
  longform [patient_A] = Some (long_format [patient_A]) /\
  sole_record [patient_A] patient_A /\
  c_t0 patient_A <= event_end_date patient_A /\
  Z.of_nat (length (filter (fun p : panel_row => idvar p =? c_idvar patient_A)
                           (untruncated [patient_A])))
  = (event_end_date patient_A - c_t0 patient_A) / NUM_DAYS + 2.
Proof.
  assert (H1 : longform [patient_A] = Some (long_format [patient_A]))
    by (vm_compute; reflexivity).
  assert (H2 : sole_record [patient_A] patient_A) by apply sole_record_single.
  assert (H3 : c_t0 patient_A <= event_end_date patient_A)
    by (vm_compute; discriminate).
  split; [exact H1|]. split; [exact H2|]. split; [exact H3|].
  exact (proj1 (@patient_row_count _ _ _ H1 H2 H3)).
Defined.

Lemma tt_counts_rows_witness :
  longform [lost_patient] = Some (long_format [lost_patient]) /\
  sole_record [lost_patient] lost_patient /\
  In (lost_row 0) (long_format [lost_patient]) /\
  idvar (lost_row 0) = c_idvar lost_patient /\
  S (tt_col (long_format [lost_patient]) (lost_row 0))
  = length (filter (fun q : panel_row => idvar q =? c_idvar lost_patient)
                   (long_format [lost_patient])).
Proof.
  assert (H1 : longform [lost_patient] = Some (long_format [lost_patient]))
    by (vm_compute; reflexivity).
  assert (H2 : sole_record [lost_patient] lost_patient)
    by apply sole_record_single.
  assert (H3 : In (lost_row 0) (long_format [lost_patient])) by in_frame.
  assert (H4 : idvar (lost_row 0) = c_idvar lost_patient) by reflexivity.
  split; [exact H1|]. split; [exact H2|]. split; [exact H3|].
  split; [exact H4|].
  exact (proj1 (@tt_counts_rows _ _ _ _ H1 H2 H3 H4)).
Defined.
